(** * ax.service.utils.instantiation

    A shallow embedding of [ax/service/utils/instantiation.py]: the
    parameter builder ([parameter_from_json]), the constraint mini-language
    ([constraint_from_str], [outcome_constraint_from_str]), the experiment
    assembler ([make_experiment]) and the evaluation normaliser
    ([raw_data_to_evaluation], [data_from_evaluations]).

    Python values are an inductive type of tagged values, dictionaries are
    insertion-ordered association lists, exceptions are an explicit error
    type threaded through a small result monad, and [float] is IEEE-754
    binary64 as [spec_float]. *)

From Stdlib Require Import ZArith Lia Ascii String List Bool.
From Stdlib Require Import Floats.SpecFloat.
From stdpp Require Import base decidable option list strings.

Local Open Scope string_scope.
Local Open Scope list_scope.
Local Open Scope nat_scope.

(** ** Python strings

    A [str] is a [string] whose characters are the code points below 256. *)

Module PyStr.

Definition code (c : ascii) : N := N_of_ascii c.

(** [str.isspace] on the code points below 256: TAB..CR, FS..US, SPACE,
    NEL and NBSP. *)
Definition is_space (c : ascii) : bool :=
  let n := code c in
  ((9 <=? n) && (n <=? 13) || (28 <=? n) && (n <=? 32)
   || (n =? 133) || (n =? 160))%N.

Definition is_digit (c : ascii) : bool :=
  let n := code c in ((48 <=? n) && (n <=? 57))%N.

(** [s + c] for a single character [c]. *)
Definition snoc (s : string) (c : ascii) : string := s +:+ String c "".

(** [s.split()]: the maximal runs of non-whitespace characters, in order.
    [cur] is the token being read, [None] between two tokens. *)
Fixpoint split_go (cur : option string) (s : string) : list string :=
  match s with
  | "" => match cur with Some w => [w] | None => [] end
  | String c s' =>
      if is_space c then
        match cur with
        | Some w => w :: split_go None s'
        | None => split_go None s'
        end
      else split_go (Some (snoc (default "" cur) c)) s'
  end.

Definition split (s : string) : list string := split_go None s.

(** [" ".join(tokens)] *)
Fixpoint join_space (tokens : list string) : string :=
  match tokens with
  | [] => ""
  | [t] => t
  | t :: ts => t +:+ " " +:+ join_space ts
  end.

Fixpoint lstrip (s : string) : string :=
  match s with
  | String c s' => if is_space c then lstrip s' else s
  | "" => ""
  end.

Definition strip (s : string) : string :=
  String.rev (lstrip (String.rev (lstrip s))).

(** [s[-1]], which raises [IndexError] on the empty string. *)
Fixpoint last_char (s : string) : option ascii :=
  match s with
  | "" => None
  | String c "" => Some c
  | String _ s' => last_char s'
  end.

(** [s[:-1]] *)
Fixpoint drop_last (s : string) : string :=
  match s with
  | "" => ""
  | String _ "" => ""
  | String c s' => String c (drop_last s')
  end.

(** [s.lower()] on the ASCII letters. *)
Definition lower_char (c : ascii) : ascii :=
  let n := code c in
  if ((65 <=? n) && (n <=? 90))%N then ascii_of_N (n + 32) else c.

Fixpoint lower (s : string) : string :=
  match s with
  | "" => ""
  | String c s' => String (lower_char c) (lower s')
  end.

End PyStr.

(** ** Python floats

    [float] is IEEE-754 binary64; [float(s)] reads a decimal literal and
    rounds it to the nearest binary64 value, ties to even. *)

Module PyFloat.

Definition float : Type := spec_float.

Definition prec : Z := 53.
Definition emax : Z := 1024.

(** The binary64 value nearest to [(-1)^neg * m * 10^e10], for [0 <= m]. *)
Definition of_decimal (neg : bool) (m e10 : Z) : float :=
  match m with
  | Z0 => S754_zero neg
  | _ =>
      let num := (m * 10 ^ Z.max e10 0)%Z in
      let den := (10 ^ Z.max (- e10) 0)%Z in
      let '(q, e, l) := SFdiv_core_binary prec emax num 0 den 0 in
      binary_round_aux prec emax neg q e l
  end.

(** The longest prefix of decimal digits, and the rest. *)
Fixpoint span_digits (s : string) : string * string :=
  match s with
  | String c s' =>
      if PyStr.is_digit c then
        let '(ds, r) := span_digits s' in (String c ds, r)
      else ("", s)
  | "" => ("", "")
  end.

Fixpoint digits_value (acc : Z) (ds : string) : Z :=
  match ds with
  | "" => acc
  | String c ds' =>
      digits_value (10 * acc + (Z.of_N (PyStr.code c) - 48))%Z ds'
  end.

Definition parse_sign (s : string) : bool * string :=
  match s with
  | String "-" r => (true, r)
  | String "+" r => (false, r)
  | _ => (false, s)
  end.

(** The grammar of the C string-to-double routine behind [float]:
    [sign? (digits+ ('.' digits* )? | '.' digits+) ([eE] sign? digits+)?],
    matched against the whole string. *)
Definition parse_number (s : string) : option float :=
  let '(neg, r) := parse_sign s in
  let '(ip, r1) := span_digits r in
  let '(fp, r2) :=
    match r1 with
    | String "." r' => span_digits r'
    | _ => ("", r1)
    end in
  let mant := digits_value 0 (ip +:+ fp) in
  let scale := (- Z.of_nat (String.length fp))%Z in
  if bool_decide (ip +:+ fp = "") then None
  else
    match r2 with
    | "" => Some (of_decimal neg mant scale)
    | String c r3 =>
        if bool_decide (c = "e"%char \/ c = "E"%char) then
          let '(eneg, r4) := parse_sign r3 in
          let '(ed, r5) := span_digits r4 in
          if bool_decide (ed = "" \/ r5 <> "") then None
          else
            let ex := digits_value 0 ed in
            Some (of_decimal neg mant
                    ((if eneg then - ex else ex) + scale)%Z)
        else None
    end.

(** [sign? ("inf" | "infinity" | "nan")], case-insensitive. The sign and
    payload of a NaN are not represented. *)
Definition parse_inf_or_nan (s : string) : option float :=
  let '(neg, r) := parse_sign s in
  let w := PyStr.lower r in
  if bool_decide (w = "inf" \/ w = "infinity") then Some (S754_infinity neg)
  else if bool_decide (w = "nan") then Some S754_nan
  else None.

(** Underscores in a numeric literal: each one stands between two digits.
    Returns the literal without them. [prev] is the previous character. *)
Fixpoint strip_underscores (prev : option ascii) (s : string)
  : option string :=
  match s with
  | "" => if bool_decide (prev = Some "_"%char) then None else Some ""
  | String c s' =>
      if bool_decide (c = "_"%char) then
        match prev with
        | Some p =>
            if PyStr.is_digit p then strip_underscores (Some c) s' else None
        | None => None
        end
      else if bool_decide (prev = Some "_"%char) && negb (PyStr.is_digit c)
      then None
      else String c <$> strip_underscores (Some c) s'
  end.

(** [float(s)] for a [str]; [None] stands for [ValueError]. *)
Definition of_str (s : string) : option float :=
  s' ← strip_underscores None s;
  let t := PyStr.strip s' in
  match parse_number t with
  | Some x => Some x
  | None => parse_inf_or_nan t
  end.

End PyFloat.

(** ** Python lists and dictionaries *)

Module PyList.

(** [l[i]] with Python's negative indices; [None] stands for
    [IndexError]. *)
Definition index {A} (l : list A) (i : Z) : option A :=
  if (i <? 0)%Z then
    if (Z.of_nat (length l) + i <? 0)%Z then None
    else l !! Z.to_nat (Z.of_nat (length l) + i)
  else l !! Z.to_nat i.

(** [l[:-2]] *)
Definition drop_last2 {A} (l : list A) : list A := take (length l - 2) l.

End PyList.

(** A [dict] with [str] keys: an association list in insertion order, in
    which a key is bound by its first entry. *)
Module PyDict.

Definition dict (V : Type) : Type := list (string * V).

Definition keys {V} (d : dict V) : list string := d.*1.
Definition values {V} (d : dict V) : list V := d.*2.

(** [k in d] *)
Definition contains {V} (d : dict V) (k : string) : bool :=
  bool_decide (k ∈ keys d).

(** [d[k]]; [None] stands for [KeyError]. *)
Fixpoint get_item {V} (d : dict V) (k : string) : option V :=
  match d with
  | [] => None
  | (k', v) :: d' => if bool_decide (k' = k) then Some v else get_item d' k
  end.

(** [d.get(k, dflt)] *)
Definition get {V} (d : dict V) (k : string) (dflt : V) : V :=
  default dflt (get_item d k).

(** [d[k] = v]: an existing key keeps its position. *)
Fixpoint set_item {V} (d : dict V) (k : string) (v : V) : dict V :=
  match d with
  | [] => [(k, v)]
  | (k', v') :: d' =>
      if bool_decide (k' = k) then (k, v) :: d'
      else (k', v') :: set_item d' k v
  end.

(** [dict(pairs)] and [{k: v for k, v in pairs}] *)
Definition of_pairs {V} (pairs : list (string * V)) : dict V :=
  fold_left (fun d kv => set_item d kv.1 kv.2) pairs [].

End PyDict.

Import PyDict.

(** ** Python values and types *)

Inductive npfloat := float16 | float32 | float64.
Inductive npint := int8 | int16 | int32 | int64.

(** The values the functions below receive: JSON-like data, tuples and
    NumPy scalars. *)
#[warnings="-register-all"]
Inductive pyval :=
| VNone
| VBool (b : bool)
| VInt (n : Z)
| VFloat (x : PyFloat.float)
| VStr (s : string)
| VList (l : list pyval)
| VTuple (l : list pyval)
| VDict (d : list (string * pyval))
| VNpFloat (k : npfloat) (x : PyFloat.float)
| VNpInt (k : npint) (n : Z).

(** The classes of those values. *)
Inductive pytype :=
| NoneType | bool_ | int_ | float_ | str_ | list_ | tuple_ | dict_
| np_floating (k : npfloat)
| np_integer (k : npint).

#[global] Instance npfloat_eq_dec : EqDecision npfloat.
Proof. solve_decision. Defined.
#[global] Instance npint_eq_dec : EqDecision npint.
Proof. solve_decision. Defined.
#[global] Instance pytype_eq_dec : EqDecision pytype.
Proof. solve_decision. Defined.

(** [type(v)] *)
Definition type_of (v : pyval) : pytype :=
  match v with
  | VNone => NoneType
  | VBool _ => bool_
  | VInt _ => int_
  | VFloat _ => float_
  | VStr _ => str_
  | VList _ => list_
  | VTuple _ => tuple_
  | VDict _ => dict_
  | VNpFloat k _ => np_floating k
  | VNpInt k _ => np_integer k
  end.

(** [issubclass(t, u)]: [bool] derives from [int], and [numpy.float64]
    from [float]. *)
Definition issubclass (t u : pytype) : bool :=
  bool_decide (t = u)
  || match t, u with
     | bool_, int_ => true
     | np_floating float64, float_ => true
     | _, _ => false
     end.

(** [isinstance(v, t)] *)
Definition isinstance (v : pyval) (t : pytype) : bool :=
  issubclass (type_of v) t.

(** [isinstance(v, (t1, ..., tn))] *)
Definition isinstance_any (v : pyval) (ts : list pytype) : bool :=
  existsb (isinstance v) ts.

(** ** Exceptions *)

(** The messages of the module's [raise] and [assert] statements, with the
    values they interpolate. *)
Inductive message :=
| NoParameterType (python_type : pytype)
| ArgumentWasNone
| ValuesNotSameType (field_name param_name : string)
| BoundsRequired
| CannotParseRange (name : string)
| ValuesRequired
| CannotParseChoice (name : string)
| ValueRequired
| CannotParseFixed (name : string)
| NameMustBeString
| TypeMustBeClass
| ValueTypeMustBeKnown
| FixedHasList
| UnrecognizedParameterType (parameter_class : string)
| ConstraintForm
| ParameterNotIn (token : string) (parameter_names : list string)
| BoundMustBeNumber (token : string)
| ExpectedSum (token : string)
| WeightMustBeNumber (token : string)
| ExpectedMultiplication (token : string)
| OutcomeConstraintForm
| OutcomeBoundMustBeFloat
| MustSetStatusQuo
| RawDataOneArm
| RawDataInvalidType
| MixedEvaluations.

Inductive exn :=
| AssertionError (m : message)
| ValueError (m : message)
| KeyError (key : string)
| IndexError.

Inductive result (A : Type) :=
| Ok (a : A)
| Raise (e : exn).
Arguments Ok {A} a.
Arguments Raise {A} e.

#[global] Instance result_ret : MRet result := fun A a => Ok a.
#[global] Instance result_bind : MBind result :=
  fun A B f m => match m with Ok a => f a | Raise e => Raise e end.
#[global] Instance result_fmap : FMap result :=
  fun A B f m => match m with Ok a => Ok (f a) | Raise e => Raise e end.

(** [assert b, m] *)
Definition assert (b : bool) (m : message) : result unit :=
  if b then Ok tt else Raise (AssertionError m).

(** An optional value, raising [e] when it is absent. *)
Definition or_raise {A} (o : option A) (e : exn) : result A :=
  match o with Some a => Ok a | None => Raise e end.

(** The list comprehension [[f(x) for x in l]]: left to right, stopping at
    the first exception. *)
Fixpoint comprehension {A B} (f : A -> result B) (l : list A)
  : result (list B) :=
  match l with
  | [] => Ok []
  | x :: l' => y ← f x; ys ← comprehension f l'; Ok (y :: ys)
  end.

(** The spec's single error kind covers the failures the module raises on
    purpose: its [assert] statements and its [raise ValueError]. *)
Definition ValidationError (e : exn) : Prop :=
  match e with
  | AssertionError _ | ValueError _ => True
  | KeyError _ | IndexError => False
  end.

Definition fails_with_ValidationError {A} (r : result A) : Prop :=
  match r with
  | Ok _ => False
  | Raise e => ValidationError e
  end.

(** ** External collaborators of [ax.core]

    The domain classes are consumed through their constructors, which are
    kept as data. *)

Inductive ParameterType := BOOL | INT | FLOAT | STRING.

Inductive parameter :=
| RangeParameter (name : string) (parameter_type : ParameterType)
    (lower upper : pyval) (log_scale is_fidelity : pyval)
| ChoiceParameter (name : string) (parameter_type : ParameterType)
    (values : list pyval) (is_ordered : pyval)
| FixedParameter (name : string) (parameter_type : ParameterType)
    (value : pyval).

(** [p.name] *)
Definition parameter_name (p : parameter) : string :=
  match p with
  | RangeParameter name _ _ _ _ _
  | ChoiceParameter name _ _ _
  | FixedParameter name _ _ => name
  end.

(** Modelled from the spec: [PARAMETER_PYTHON_TYPE_MAP] of
    [ax.core.parameter] is imported and not defined in this module; it is
    the fixed bijection between the parameter-type enum and the host scalar
    types [int], [float], [str] and [bool]. *)
Definition PARAMETER_PYTHON_TYPE_MAP : list (ParameterType * pytype) :=
  [(INT, int_); (FLOAT, float_); (STRING, str_); (BOOL, bool_)].

(** Modelled from the spec: [not_none] of [ax.utils.common.typeutils] is
    imported and not defined in this module. The type of the first value is
    taken from a value that is not [None]: [not_none] returns its argument
    and raises [ValueError] on [None]. *)
Definition not_none (v : pyval) : result pyval :=
  match v with
  | VNone => Raise (ValueError ArgumentWasNone)
  | _ => Ok v
  end.

Inductive ComparisonOp := LEQ | GEQ.

#[global] Instance ComparisonOp_eq_dec : EqDecision ComparisonOp.
Proof. solve_decision. Defined.

(** [OrderConstraint] and [SumConstraint] derive from
    [ParameterConstraint]; the three constructors build values of the one
    type. *)
Inductive parameter_constraint :=
| OrderConstraint (lower_parameter upper_parameter : parameter)
| SumConstraint (parameters : list parameter) (is_upper_bound : bool)
    (bound : PyFloat.float)
| ParameterConstraint (constraint_dict : dict PyFloat.float)
    (bound : PyFloat.float).

Record Metric := { Metric_name : string }.

Record OutcomeConstraint := {
  oc_metric : Metric;
  oc_op : ComparisonOp;
  oc_bound : PyFloat.float;
  relative : bool
}.

Record Arm := { Arm_parameters : dict pyval }.

Record SearchSpace := {
  ss_parameters : list parameter;
  ss_parameter_constraints : option (list parameter_constraint)
}.

Record Objective := { obj_metric : Metric; obj_minimize : bool }.

Record OptimizationConfig := {
  oc_objective : Objective;
  oc_outcome_constraints : list OutcomeConstraint
}.

Record Experiment := {
  exp_name : option string;
  exp_search_space : SearchSpace;
  exp_optimization_config : OptimizationConfig;
  exp_status_quo : option Arm;
  exp_experiment_type : option string
}.

(** ** The module's constants *)

Definition PARAM_CLASSES : list string := ["range"; "choice"; "fixed"].

Definition PARAM_TYPES : dict pytype :=
  [("int", int_); ("float", float_); ("bool", bool_); ("str", str_)].

Definition COMPARISON_OPS : dict ComparisonOp := [("<=", LEQ); (">=", GEQ)].

(** ** Parameter builder *)

(** The loop of [_get_parameter_type] over the items of the type map. *)
Fixpoint _get_parameter_type_loop (items : list (ParameterType * pytype))
    (python_type : pytype) : result ParameterType :=
  match items with
  | [] => Raise (ValueError (NoParameterType python_type))
  | (param_type, py_type) :: items' =>
      if bool_decide (py_type = python_type) then Ok param_type
      else _get_parameter_type_loop items' python_type
  end.

Definition _get_parameter_type (python_type : pytype)
  : result ParameterType :=
  _get_parameter_type_loop PARAMETER_PYTHON_TYPE_MAP python_type.

Definition _to_parameter_type (vals : list pyval) (typ : option string)
    (param_name field_name : string) : result ParameterType :=
  match typ with
  | None =>
      v0 ← or_raise (PyList.index vals 0) IndexError;
      v0 ← not_none v0;
      let typ := type_of v0 in
      parameter_type ← _get_parameter_type typ;
      assert (forallb (fun x => isinstance x typ) vals)
        (ValuesNotSameType field_name param_name);;
      Ok parameter_type
  | Some typ =>
      py ← or_raise (get_item PARAM_TYPES typ) (KeyError typ);
      _get_parameter_type py
  end.

Definition _make_range_param (name : string) (representation : dict pyval)
    (parameter_type : option string) : result parameter :=
  assert (contains representation "bounds") BoundsRequired;;
  bounds ← or_raise (get_item representation "bounds") (KeyError "bounds");
  match bounds with
  | VList bounds =>
      assert (bool_decide (length bounds = 2)) (CannotParseRange name);;
      pt ← _to_parameter_type bounds parameter_type name "bounds";
      lower ← or_raise (PyList.index bounds 0) IndexError;
      upper ← or_raise (PyList.index bounds 1) IndexError;
      Ok (RangeParameter name pt lower upper
            (get representation "log_scale" (VBool false))
            (get representation "is_fidelity" (VBool false)))
  | _ => Raise (AssertionError (CannotParseRange name))
  end.

Definition _make_choice_param (name : string) (representation : dict pyval)
    (parameter_type : option string) : result parameter :=
  assert (contains representation "values") ValuesRequired;;
  values ← or_raise (get_item representation "values") (KeyError "values");
  match values with
  | VList values =>
      assert (bool_decide (1 < length values)) (CannotParseChoice name);;
      pt ← _to_parameter_type values parameter_type name "values";
      Ok (ChoiceParameter name pt values
            (get representation "is_ordered" (VBool false)))
  | _ => Raise (AssertionError (CannotParseChoice name))
  end.

Definition _make_fixed_param (name : string) (representation : dict pyval)
    (parameter_type : option string) : result parameter :=
  assert (contains representation "value") ValueRequired;;
  value ← or_raise (get_item representation "value") (KeyError "value");
  assert (bool_decide (type_of value ∈ values PARAM_TYPES))
    (CannotParseFixed name);;
  pt ← match parameter_type with
       | None => _get_parameter_type (type_of value)
       | Some typ =>
           py ← or_raise (get_item PARAM_TYPES typ) (KeyError typ);
           _get_parameter_type py
       end;
  Ok (FixedParameter name pt value).

(** [parameter_from_json], the spec's [build_parameter]. *)
Definition parameter_from_json (representation : dict pyval)
  : result parameter :=
  name ← or_raise (get_item representation "name") (KeyError "name");
  name ← match name with
         | VStr s => Ok s
         | _ => Raise (AssertionError NameMustBeString)
         end;
  parameter_class ←
    or_raise (get_item representation "type") (KeyError "type");
  parameter_class ←
    match parameter_class with
    | VStr s =>
        assert (bool_decide (s ∈ PARAM_CLASSES)) TypeMustBeClass;; Ok s
    | _ => Raise (AssertionError TypeMustBeClass)
    end;
  parameter_type ←
    match get representation "value_type" VNone with
    | VNone => Ok None
    | VStr s =>
        assert (contains PARAM_TYPES s) ValueTypeMustBeKnown;; Ok (Some s)
    | _ => Raise (AssertionError ValueTypeMustBeKnown)
    end;
  if bool_decide (parameter_class = "range") then
    _make_range_param name representation parameter_type
  else if bool_decide (parameter_class = "choice") then
    _make_choice_param name representation parameter_type
  else if bool_decide (parameter_class = "fixed") then
    assert (negb (existsb (fun val => isinstance val list_)
                    (values representation))) FixedHasList;;
    _make_fixed_param name representation parameter_type
  else Raise (ValueError (UnrecognizedParameterType parameter_class)).

(** ** Constraint parser *)

(** [t in COMPARISON_OPS] for an optional token. *)
Definition is_comparison (t : option string) : bool :=
  from_option (contains COMPARISON_OPS) false t.

(** [len(tokens) == 3 and tokens[1] in COMPARISON_OPS] *)
Definition order_const (tokens : list string) : bool :=
  bool_decide (length tokens = 3) && is_comparison (PyList.index tokens 1).

Definition sum_const (tokens : list string) : bool :=
  bool_decide (5 ≤ length tokens)%nat
  && bool_decide (length tokens mod 2 = 1)
  && is_comparison (PyList.index tokens (-2))
  && negb (bool_decide ("*" ∈ tokens)).

Definition parameter_const (tokens : list string) : bool :=
  bool_decide (5 ≤ length tokens)%nat
  && bool_decide (length tokens mod 2 = 1)
  && is_comparison (PyList.index tokens (-2))
  && bool_decide ("*" ∈ tokens).

(** [COMPARISON_OPS[tokens[i]]] *)
Definition comparison_at (tokens : list string) (i : Z)
  : result ComparisonOp :=
  t ← or_raise (PyList.index tokens i) IndexError;
  or_raise (get_item COMPARISON_OPS t) (KeyError t).

(** The loop of the sum branch over [enumerate(tokens[:-2])], from index
    [idx] on; it returns [used_parameters]. *)
Fixpoint sum_loop (parameter_names : list string) (idx : nat)
    (tokens : list string) (used_parameters : list string)
  : result (list string) :=
  match tokens with
  | [] => Ok used_parameters
  | token :: tokens' =>
      if bool_decide (idx mod 2 = 0) then
        assert (bool_decide (token ∈ parameter_names))
          (ParameterNotIn token parameter_names);;
        sum_loop parameter_names (S idx) tokens' (used_parameters ++ [token])
      else
        assert (bool_decide (token = "+")) (ExpectedSum token);;
        sum_loop parameter_names (S idx) tokens' used_parameters
  end.

(** The loop of the weighted branch over [enumerate(tokens[:-2])], from
    index [idx] on; it returns [used_parameters] and [used_weights]. *)
Fixpoint parameter_loop (parameter_names : list string) (idx : nat)
    (tokens : list string) (used_parameters : list string)
    (used_weights : list PyFloat.float)
  : result (list string * list PyFloat.float) :=
  match tokens with
  | [] => Ok (used_parameters, used_weights)
  | token :: tokens' =>
      if bool_decide (idx mod 4 = 0) then
        weight ← or_raise (PyFloat.of_str token)
                   (ValueError (WeightMustBeNumber token));
        parameter_loop parameter_names (S idx) tokens' used_parameters
          (used_weights ++ [weight])
      else if bool_decide (idx mod 4 = 1) then
        assert (bool_decide (token = "*")) (ExpectedMultiplication token);;
        parameter_loop parameter_names (S idx) tokens' used_parameters
          used_weights
      else if bool_decide (idx mod 4 = 2) then
        assert (bool_decide (token ∈ parameter_names))
          (ParameterNotIn token parameter_names);;
        parameter_loop parameter_names (S idx) tokens'
          (used_parameters ++ [token]) used_weights
      else
        assert (bool_decide (token = "+")) (ExpectedSum token);;
        parameter_loop parameter_names (S idx) tokens' used_parameters
          used_weights
  end.

(** The body of [constraint_from_str] once [tokens] is bound. After the
    first guard and the order branch, one of [sum_const] and
    [parameter_const] holds (lemma [sum_or_parameter_const]), so the last
    [if parameter_const:] is the [else] of [if sum_const:]. *)
Definition constraint_from_tokens (tokens : list string)
    (parameters : dict parameter) : result parameter_constraint :=
  let parameter_names := keys parameters in
  if negb (order_const tokens || sum_const tokens || parameter_const tokens)
  then Raise (ValueError ConstraintForm)
  else if order_const tokens then
    left ← or_raise (PyList.index tokens 0) IndexError;
    right ← or_raise (PyList.index tokens 2) IndexError;
    assert (bool_decide (left ∈ parameter_names))
      (ParameterNotIn left parameter_names);;
    assert (bool_decide (right ∈ parameter_names))
      (ParameterNotIn right parameter_names);;
    op ← comparison_at tokens 1;
    if bool_decide (op = LEQ) then
      lower ← or_raise (get_item parameters left) (KeyError left);
      upper ← or_raise (get_item parameters right) (KeyError right);
      Ok (OrderConstraint lower upper)
    else
      lower ← or_raise (get_item parameters right) (KeyError right);
      upper ← or_raise (get_item parameters left) (KeyError left);
      Ok (OrderConstraint lower upper)
  else
    last ← or_raise (PyList.index tokens (-1)) IndexError;
    bound ← or_raise (PyFloat.of_str last)
              (ValueError (BoundMustBeNumber last));
    if sum_const tokens then
      used_parameters ←
        sum_loop parameter_names 0 (PyList.drop_last2 tokens) [];
      ps ← comprehension
             (fun p => or_raise (get_item parameters p) (KeyError p))
             (filter (fun p => p ∈ used_parameters) (keys parameters));
      op ← comparison_at tokens (-2);
      Ok (SumConstraint ps (bool_decide (op = LEQ)) bound)
    else
      '(used_parameters, used_weights) ←
        parameter_loop parameter_names 0 (PyList.drop_last2 tokens) [] [];
      Ok (ParameterConstraint
            (of_pairs (zip used_parameters used_weights)) bound).

(** [constraint_from_str], the spec's [parse_constraint]. *)
Definition constraint_from_str (representation : string)
    (parameters : dict parameter) : result parameter_constraint :=
  constraint_from_tokens (PyStr.split representation) parameters.

(** ** Outcome constraint parser *)

(** [outcome_constraint_from_str], the spec's [parse_outcome_constraint].
    [IndexError] from [bound_repr[-1]] is not a [ValueError] and passes
    through the [except] clause. *)
Definition outcome_constraint_from_str (representation : string)
  : result OutcomeConstraint :=
  let tokens := PyStr.split representation in
  assert (bool_decide (length tokens = 3)
          && is_comparison (PyList.index tokens 1)) OutcomeConstraintForm;;
  op ← comparison_at tokens 1;
  bound_repr ← or_raise (PyList.index tokens 2) IndexError;
  c ← or_raise (PyStr.last_char bound_repr) IndexError;
  let '(rel, bound_repr) :=
    if bool_decide (c = "%"%char) then (true, PyStr.drop_last bound_repr)
    else (false, bound_repr) in
  bound ← or_raise (PyFloat.of_str bound_repr)
            (ValueError OutcomeBoundMustBeFloat);
  metric_name ← or_raise (PyList.index tokens 0) IndexError;
  Ok {| oc_metric := {| Metric_name := metric_name |};
        oc_op := op; oc_bound := bound; relative := rel |}.

(** ** Experiment assembler *)

Section make_experiment.

(** [DEFAULT_OBJECTIVE_NAME] of [ax.core.simple_experiment], imported and
    not defined in this module. *)
Variable DEFAULT_OBJECTIVE_NAME : string.

(** [x or dflt] for an optional string: [None] and the empty string are
    falsy. *)
Definition str_or (x : option string) (dflt : string) : string :=
  match x with
  | Some s => if bool_decide (s = "") then dflt else s
  | None => dflt
  end.

Definition make_experiment
    (parameters : list (dict pyval))
    (name : option string)
    (objective_name : option string)
    (minimize : bool)
    (parameter_constraints : option (list string))
    (outcome_constraints : option (list string))
    (status_quo : option (dict pyval))
    (experiment_type : option string) : result Experiment :=
  exp_parameters ← comprehension parameter_from_json parameters;
  let status_quo_arm := Build_Arm <$> status_quo in
  let parameter_map :=
    of_pairs ((fun p => (parameter_name p, p)) <$> exp_parameters) in
  ocs ← comprehension outcome_constraint_from_str
          (default [] outcome_constraints);
  if bool_decide (status_quo_arm = None) && existsb relative ocs then
    Raise (ValueError MustSetStatusQuo)
  else
    pcs ← match parameter_constraints with
          | None => Ok None
          | Some cs =>
              Some <$>
                comprehension (fun c => constraint_from_str c parameter_map)
                  cs
          end;
    Ok {| exp_name := name;
          exp_search_space :=
            {| ss_parameters := exp_parameters;
               ss_parameter_constraints := pcs |};
          exp_optimization_config :=
            {| oc_objective :=
                 {| obj_metric :=
                      {| Metric_name :=
                           str_or objective_name DEFAULT_OBJECTIVE_NAME |};
                    obj_minimize := minimize |};
               oc_outcome_constraints := ocs |};
          exp_status_quo := status_quo_arm;
          exp_experiment_type := experiment_type |}.

End make_experiment.

(** ** Evaluation normaliser *)

Section evaluations.

(** [numpy_type_to_python_type] of [ax.utils.common.typeutils], imported
    and not defined in this module. *)
Variable numpy_type_to_python_type : pyval -> pyval.

(** [raw_data_to_evaluation], the spec's [normalize_evaluation].
    [start_time] and [end_time] are accepted and unused. *)
Definition raw_data_to_evaluation (raw_data : pyval)
    (objective_name : string) (start_time end_time : option Z)
  : result pyval :=
  match raw_data with
  | VDict d =>
      if existsb (fun x => isinstance x dict_) (values d) then
        Raise (ValueError RawDataOneArm)
      else Ok raw_data
  | _ =>
      if isinstance raw_data list_ then Ok raw_data
      else if isinstance raw_data tuple_ then
        Ok (VDict [(objective_name, raw_data)])
      else if isinstance_any raw_data [float_; int_] then
        Ok (VDict [(objective_name, VTuple [raw_data; VNone])])
      else if isinstance_any raw_data
                [np_floating float32; np_floating float64;
                 np_integer int32; np_integer int64] then
        Ok (VDict [(objective_name,
                    VTuple [numpy_type_to_python_type raw_data; VNone])])
      else Raise (ValueError RawDataInvalidType)
  end.

(** The results table and its two entry points,
    [Data.from_evaluations] and [Data.from_fidelity_evaluations]. *)
Variable Data : Type.
Variable Data_from_evaluations :
  dict pyval -> Z -> dict Z -> option Z -> option Z -> result Data.
Variable Data_from_fidelity_evaluations :
  dict pyval -> Z -> dict Z -> option Z -> option Z -> result Data.

(** [all(isinstance(evaluations[x], t) for x in evaluations.keys())];
    a key of the dictionary is always found. *)
Definition all_isinstance (evaluations : dict pyval) (t : pytype) : bool :=
  forallb (fun x => from_option (fun v => isinstance v t) false
                      (get_item evaluations x))
    (keys evaluations).

(** [data_from_evaluations], the spec's [build_data_table]. *)
Definition data_from_evaluations (evaluations : dict pyval)
    (trial_index : Z) (sample_sizes : dict Z)
    (start_time end_time : option Z) : result Data :=
  if all_isinstance evaluations dict_ then
    Data_from_evaluations evaluations trial_index sample_sizes
      start_time end_time
  else if all_isinstance evaluations list_ then
    Data_from_fidelity_evaluations evaluations trial_index sample_sizes
      start_time end_time
  else Raise (ValueError MixedEvaluations).

End evaluations.

(** * Properties *)

(** One step of the result monad on a known head. *)
Ltac result_step :=
  cbn [mbind result_bind mret result_ret fmap result_fmap or_raise assert
       andb orb negb].

(** ** Strings, lists and dictionaries *)

Lemma snoc_nonempty s c : PyStr.snoc s c ≠ "".
Proof. unfold PyStr.snoc. destruct s; discriminate. Qed.

Lemma split_go_nonempty s : forall cur t,
  (forall w, cur = Some w -> w ≠ "") ->
  t ∈ PyStr.split_go cur s -> t ≠ "".
Proof.
  induction s as [|c s IH]; intros cur t Hcur; simpl.
  - destruct cur as [w|]; [|by intros ?%elem_of_nil].
    intros ->%list_elem_of_singleton. by apply Hcur.
  - destruct (PyStr.is_space c).
    + destruct cur as [w|].
      * intros [->|Ht]%elem_of_cons; [by apply Hcur|].
        by apply (IH None).
      * by apply IH.
    + apply IH. intros w [= <-]. apply snoc_nonempty.
Qed.

(** No token of [s.split()] is empty. *)
Lemma split_nonempty s t : t ∈ PyStr.split s -> t ≠ "".
Proof. apply split_go_nonempty. discriminate. Qed.

Lemma last_char_is_Some s : s ≠ "" -> is_Some (PyStr.last_char s).
Proof.
  induction s as [|c s IH]; [done|]. intros _. simpl.
  destruct s; [by eexists|]. by apply IH.
Qed.

Lemma index_app_last2 {A} (pre : list A) (x y : A) :
  PyList.index (pre ++ [x; y]) (-1) = Some y
  /\ PyList.index (pre ++ [x; y]) (-2) = Some x.
Proof.
  unfold PyList.index. rewrite length_app. simpl length.
  replace (-1 <? 0)%Z with true by done.
  replace (-2 <? 0)%Z with true by done.
  rewrite !(proj2 (Z.ltb_ge _ _)) by lia. split.
  - replace (Z.to_nat _) with (length pre + 1) by lia.
    by rewrite lookup_app_r, Nat.add_comm, Nat.add_sub by lia.
  - replace (Z.to_nat _) with (length pre + 0) by lia.
    by rewrite lookup_app_r, Nat.add_comm, Nat.add_sub by lia.
Qed.

Lemma drop_last2_app {A} (pre : list A) (x y : A) :
  PyList.drop_last2 (pre ++ [x; y]) = pre.
Proof.
  unfold PyList.drop_last2. rewrite length_app. simpl length.
  replace (length pre + 2 - 2) with (length pre) by lia.
  by rewrite take_app_length.
Qed.

Lemma get_item_elem_of {V} (d : dict V) k v :
  get_item d k = Some v -> k ∈ keys d.
Proof.
  induction d as [|[k' v'] d IH]; [done|]. simpl.
  case_bool_decide as Hk; [intros _; subst; apply elem_of_cons; by left|].
  intros ?. apply elem_of_cons. right. by apply IH.
Qed.

Lemma is_comparison_iff t :
  is_comparison (Some t) = true <-> t = "<=" \/ t = ">=".
Proof.
  unfold is_comparison, contains. simpl. rewrite bool_decide_eq_true.
  rewrite !elem_of_cons, elem_of_nil. tauto.
Qed.

(** A token stream that passes the first guard of [constraint_from_str] and
    is neither an order nor a sum has the weighted shape. *)
Lemma sum_or_parameter_const tokens :
  negb (order_const tokens || sum_const tokens || parameter_const tokens)
  = false ->
  order_const tokens = false ->
  sum_const tokens = false ->
  parameter_const tokens = true.
Proof.
  intros H Ho Hs. rewrite Ho, Hs in H. by destruct (parameter_const tokens).
Qed.

(** The three shapes exclude one another. *)
Lemma shapes_exclusive tokens :
  (order_const tokens = true -> sum_const tokens = false
                                /\ parameter_const tokens = false)
  /\ (sum_const tokens = true -> parameter_const tokens = false).
Proof.
  unfold order_const, sum_const, parameter_const. split.
  - intros [Hl _]%andb_true_iff. apply bool_decide_eq_true in Hl.
    rewrite !(bool_decide_eq_false_2 (5 ≤ _)) by lia. done.
  - rewrite !andb_true_iff, negb_true_iff. intros [_ ->].
    by rewrite andb_false_r.
Qed.

(** *** Splitting a string written with single spaces *)

Definition no_space (t : string) : Prop :=
  forall c, c ∈ list_ascii_of_string t -> PyStr.is_space c = false.

Lemma append_empty_r (w : string) : w +:+ "" = w.
Proof.
  induction w as [|c w IH]; [done|].
  change (String c (w +:+ "") = String c w). by f_equal.
Qed.

Lemma append_cons (c : ascii) (t u : string) :
  String c t +:+ u = String c (t +:+ u).
Proof. reflexivity. Qed.

Lemma snoc_append (w u : string) (c : ascii) :
  PyStr.snoc w c +:+ u = w +:+ String c u.
Proof.
  unfold PyStr.snoc. induction w as [|c' w IH]; [done|].
  rewrite !append_cons. by f_equal.
Qed.

Lemma split_go_token t : forall w rest,
  no_space t ->
  PyStr.split_go (Some w) (t +:+ String " " rest)
  = (w +:+ t) :: PyStr.split_go None rest
  /\ PyStr.split_go (Some w) t = [w +:+ t].
Proof.
  induction t as [|c t IH]; intros w rest Ht.
  - cbn. by rewrite append_empty_r.
  - assert (PyStr.is_space c = false) as Hc
      by (apply Ht; cbn; apply elem_of_cons; by left).
    assert (no_space t) as Ht'
      by (intros c' Hc'; apply Ht; cbn; apply elem_of_cons; by right).
    rewrite append_cons. cbn [PyStr.split_go]. rewrite Hc.
    cbn [from_option id].
    destruct (IH (PyStr.snoc w c) rest Ht') as [-> ->].
    by rewrite !snoc_append.
Qed.

Lemma split_go_first t : forall rest,
  no_space t -> t ≠ "" ->
  PyStr.split_go None (t +:+ String " " rest) = t :: PyStr.split_go None rest
  /\ PyStr.split_go None t = [t].
Proof.
  destruct t as [|c t]; [done|]. intros rest Ht _.
  assert (PyStr.is_space c = false) as Hc
    by (apply Ht; cbn; apply elem_of_cons; by left).
  assert (no_space t) as Ht'
    by (intros c' Hc'; apply Ht; cbn; apply elem_of_cons; by right).
  rewrite append_cons. cbn [PyStr.split_go]. rewrite Hc.
  cbn [from_option id].
  destruct (split_go_token t (PyStr.snoc "" c) rest Ht') as [-> ->]. done.
Qed.

(** Tokens without whitespace, joined by single spaces, are split back
    into themselves. *)
Lemma split_join_space (tokens : list string) :
  Forall (fun t => no_space t /\ t ≠ "") tokens ->
  PyStr.split (PyStr.join_space tokens) = tokens.
Proof.
  unfold PyStr.split. induction 1 as [|t ts [Ht Hne] Hts IH]; [done|].
  destruct ts as [|u ts].
  - by apply split_go_first.
  - change (PyStr.join_space (t :: u :: ts))
      with (t +:+ String " " (PyStr.join_space (u :: ts))).
    rewrite (proj1 (split_go_first t _ Ht Hne)). by rewrite IH.
Qed.

(** ** Order constraints *)

(** C1. Every constraint string with the three tokens [a], a comparison
    operator and [b], where [a] and [b] name the parameters [pa] and [pb] of
    [known_parameters], parses to an order constraint that reads
    lower <= upper: [a <= b] gives lower [pa] and upper [pb], and [a >= b]
    gives lower [pb] and upper [pa]. *)
Theorem order_constraint_normalized
    (representation a b : string) (parameters : dict parameter)
    (pa pb : parameter) :
  get_item parameters a = Some pa ->
  get_item parameters b = Some pb ->
  (PyStr.split representation = [a; "<="; b] ->
   constraint_from_str representation parameters
   = Ok (OrderConstraint pa pb))
  /\ (PyStr.split representation = [a; ">="; b] ->
      constraint_from_str representation parameters
      = Ok (OrderConstraint pb pa)).
Proof.
  intros Ha Hb.
  pose proof (get_item_elem_of _ _ _ Ha) as Ha'.
  pose proof (get_item_elem_of _ _ _ Hb) as Hb'.
  split; intros Hs; unfold constraint_from_str; rewrite Hs;
    unfold constraint_from_tokens; simpl;
    rewrite !bool_decide_eq_true_2 by done; simpl;
    by rewrite Ha, Hb.
Qed.

Definition x1 : parameter :=
  RangeParameter "x1" FLOAT (VFloat (S754_zero false))
    (VFloat (S754_finite false 4503599627370496 (-52)))
    (VBool false) (VBool false).

Definition x2 : parameter :=
  ChoiceParameter "x2" INT [VInt 1; VInt 2; VInt 3] (VBool true).

Definition x1_x2 : dict parameter := [("x1", x1); ("x2", x2)].

Lemma order_constraint_normalized_witness :
  constraint_from_str "x1 <= x2" x1_x2 = Ok (OrderConstraint x1 x2)
  /\ constraint_from_str " x1	>=  x2" x1_x2 = Ok (OrderConstraint x2 x1).
Proof.
  split.
  - apply (order_constraint_normalized "x1 <= x2" "x1" "x2" x1_x2 x1 x2);
      reflexivity.
  - apply (order_constraint_normalized " x1	>=  x2" "x1" "x2" x1_x2 x1 x2);
      reflexivity.
Defined.

(** ** Type inference of the parameter builder *)

Definition bounds_0_True : dict pyval :=
  [("name", VStr "x"); ("type", VStr "range");
   ("bounds", VList [VInt 0; VBool true])].

(** C2. The bounds [[0, True]] hold an [int] and a [bool], two different
    exact runtime types, and no [value_type] is given; all the same
    [_to_parameter_type] infers [INT], since [isinstance(True, int)] holds,
    and [parameter_from_json] returns the range parameter instead of
    failing. With the bounds swapped, [[True, 0]], the assertion fires. *)
Theorem type_inference_accepts_bool_after_int :
  type_of (VInt 0) ≠ type_of (VBool true)
  /\ get_item bounds_0_True "value_type" = None
  /\ _to_parameter_type [VInt 0; VBool true] None "x" "bounds" = Ok INT
  /\ parameter_from_json bounds_0_True
     = Ok (RangeParameter "x" INT (VInt 0) (VBool true)
             (VBool false) (VBool false))
  /\ _to_parameter_type [VBool true; VInt 0] None "x" "bounds"
     = Raise (AssertionError (ValuesNotSameType "bounds" "x")).
Proof.
  split; [discriminate|]. split; [reflexivity|]. split; [reflexivity|].
  split; reflexivity.
Qed.

(** ** The string [x1 * x2 <= 5] *)

(** The spec's reading of the failure of [x1 * x2 <= 5]: four tokens, and
    none of the three shape predicates holds. The string has five tokens and
    the weighted shape holds. *)
Lemma x1_times_x2_matches_weighted_shape :
  ~ (length (PyStr.split "x1 * x2 <= 5") = 4
     \/ (order_const (PyStr.split "x1 * x2 <= 5")
         || sum_const (PyStr.split "x1 * x2 <= 5")
         || parameter_const (PyStr.split "x1 * x2 <= 5")) = false).
Proof. intros [H|H]; vm_compute in H; discriminate. Qed.

(** C5, amended. [x1 * x2 <= 5] has the five tokens [x1], [*], [x2], [<=]
    and [5] and is classified as a weighted sum; it fails with [ValueError]
    because its first token [x1], in weight position, is not a number. This
    holds for every [known_parameters]. *)
Theorem x1_times_x2_fails_on_weight (parameters : dict parameter) :
  PyStr.split "x1 * x2 <= 5" = ["x1"; "*"; "x2"; "<="; "5"]
  /\ parameter_const (PyStr.split "x1 * x2 <= 5") = true
  /\ constraint_from_str "x1 * x2 <= 5" parameters
     = Raise (ValueError (WeightMustBeNumber "x1"))
  /\ fails_with_ValidationError
       (constraint_from_str "x1 * x2 <= 5" parameters).
Proof.
  assert (constraint_from_str "x1 * x2 <= 5" parameters
          = Raise (ValueError (WeightMustBeNumber "x1"))) as H
    by (vm_compute; reflexivity).
  split; [reflexivity|]. split; [reflexivity|]. split; [exact H|].
  by rewrite H.
Qed.

(** ** Outcome constraints *)

(** The bound token ends with a percent sign. *)
Definition ends_with_percent (b : string) : bool :=
  bool_decide (PyStr.last_char b = Some "%"%char).

(** The bound token without its trailing percent sign, if it has one. *)
Definition bound_text (b : string) : string :=
  if ends_with_percent b then PyStr.drop_last b else b.

Lemma outcome_constraint_from_tokens
    (representation m o b : string) (op : ComparisonOp) :
  PyStr.split representation = [m; o; b] ->
  get_item COMPARISON_OPS o = Some op ->
  outcome_constraint_from_str representation
  = match PyFloat.of_str (bound_text b) with
    | Some x =>
        Ok {| oc_metric := {| Metric_name := m |}; oc_op := op;
              oc_bound := x; relative := ends_with_percent b |}
    | None => Raise (ValueError OutcomeBoundMustBeFloat)
    end.
Proof.
  intros Hs Ho. unfold outcome_constraint_from_str, comparison_at.
  rewrite Hs.
  pose proof (get_item_elem_of _ _ _ Ho) as Ho'.
  change (PyList.index [m; o; b] 0) with (Some m).
  change (PyList.index [m; o; b] 1) with (Some o).
  change (PyList.index [m; o; b] 2) with (Some b).
  assert (is_comparison (Some o) = true) as ->
    by (by apply bool_decide_eq_true).
  rewrite bool_decide_eq_true_2 by done. result_step. rewrite Ho.
  destruct (last_char_is_Some b) as [c Hc].
  { apply (split_nonempty representation). rewrite Hs.
    rewrite !elem_of_cons. tauto. }
  rewrite Hc. unfold bound_text, ends_with_percent. rewrite Hc.
  result_step. case_bool_decide as Hp.
  - rewrite bool_decide_eq_true_2 by congruence.
    by destruct (PyFloat.of_str _).
  - rewrite bool_decide_eq_false_2 by congruence.
    by destruct (PyFloat.of_str _).
Qed.

(** C6. For an outcome constraint string of three tokens [m], a comparison
    operator and [b]: a returned constraint is relative exactly when [b]
    ends with a percent sign, and its bound is the float read from [b]
    without that sign; the call fails with [ValueError] when that text is
    not numeric; and [auc >= 80%] gives metric [auc], [GEQ], bound 80.0 and
    relative. *)
Theorem outcome_constraint_relative_iff_percent
    (representation m o b : string) (op : ComparisonOp) :
  PyStr.split representation = [m; o; b] ->
  get_item COMPARISON_OPS o = Some op ->
  (forall c, outcome_constraint_from_str representation = Ok c ->
     (relative c = true <-> PyStr.last_char b = Some "%"%char)
     /\ PyFloat.of_str (bound_text b) = Some (oc_bound c)
     /\ oc_metric c = {| Metric_name := m |} /\ oc_op c = op)
  /\ (forall x, PyFloat.of_str (bound_text b) = Some x ->
        exists c, outcome_constraint_from_str representation = Ok c)
  /\ (PyFloat.of_str (bound_text b) = None ->
        outcome_constraint_from_str representation
        = Raise (ValueError OutcomeBoundMustBeFloat)
        /\ fails_with_ValidationError
             (outcome_constraint_from_str representation))
  /\ outcome_constraint_from_str "auc >= 80%"
     = Ok {| oc_metric := {| Metric_name := "auc" |}; oc_op := GEQ;
             oc_bound := S754_finite false 5629499534213120 (-46);
             relative := true |}.
Proof.
  intros Hs Ho.
  rewrite (outcome_constraint_from_tokens _ _ _ _ _ Hs Ho).
  split; [|split; [|split]].
  - intros c Hc. destruct (PyFloat.of_str _) as [x|]; [|done].
    injection Hc as <-. simpl. unfold ends_with_percent.
    by rewrite bool_decide_eq_true.
  - intros x ->. by eexists.
  - by intros ->.
  - reflexivity.
Qed.

Lemma outcome_constraint_relative_iff_percent_witness :
  (forall c, outcome_constraint_from_str "loss <= 1.5e-3" = Ok c ->
     (relative c = true <-> PyStr.last_char "1.5e-3" = Some "%"%char)
     /\ PyFloat.of_str (bound_text "1.5e-3") = Some (oc_bound c)
     /\ oc_metric c = {| Metric_name := "loss" |} /\ oc_op c = LEQ)
  /\ outcome_constraint_from_str "auc >= eighty%"
     = Raise (ValueError OutcomeBoundMustBeFloat).
Proof.
  split.
  - refine (proj1 (outcome_constraint_relative_iff_percent
                     "loss <= 1.5e-3" "loss" "<=" "1.5e-3" LEQ _ _));
      vm_compute; reflexivity.
  - refine (proj1 (proj1 (proj2 (proj2
              (outcome_constraint_relative_iff_percent
                 "auc >= eighty%" "auc" ">=" "eighty%" GEQ _ _))) _));
      vm_compute; reflexivity.
Defined.

(** ** Relative outcome constraints need a status quo *)

(** C7. When the outcome constraint strings parse and at least one of the
    parsed constraints is relative, a call of [make_experiment] without
    [status_quo] returns no experiment: it raises, whatever the parameter
    constraints are, and once the parameters are built the exception is the
    [ValueError] that asks for a status quo. *)
Theorem make_experiment_relative_needs_status_quo
    (DEFAULT_OBJECTIVE_NAME : string)
    (parameters : list (dict pyval)) (name objective_name : option string)
    (minimize : bool) (parameter_constraints : option (list string))
    (outcome_constraints : list string) (experiment_type : option string)
    (ocs : list OutcomeConstraint) :
  comprehension outcome_constraint_from_str outcome_constraints = Ok ocs ->
  existsb relative ocs = true ->
  let r := make_experiment DEFAULT_OBJECTIVE_NAME parameters name
             objective_name minimize parameter_constraints
             (Some outcome_constraints) None experiment_type in
  (exists e, r = Raise e)
  /\ (forall exp_parameters,
        comprehension parameter_from_json parameters = Ok exp_parameters ->
        r = Raise (ValueError MustSetStatusQuo)
        /\ fails_with_ValidationError r).
Proof.
  intros Hocs Hrel r. subst r. unfold make_experiment.
  destruct (comprehension parameter_from_json parameters) as [ps|e].
  - result_step.
    change (default [] (Some outcome_constraints)) with outcome_constraints.
    rewrite Hocs. result_step.
    rewrite Hrel. rewrite bool_decide_eq_true_2 by done. result_step.
    split; [by eexists|]. by intros ? _.
  - result_step. split; [by eexists|]. by intros ? [=].
Qed.

Lemma make_experiment_relative_needs_status_quo_witness :
  make_experiment "objective"
    [[("name", VStr "x"); ("type", VStr "range");
      ("bounds", VList [VInt 0; VInt 10])]]
    None None false None (Some ["auc >= 80%"]) None None
  = Raise (ValueError MustSetStatusQuo).
Proof.
  refine (proj1 (proj2 (make_experiment_relative_needs_status_quo
    "objective"
    [[("name", VStr "x"); ("type", VStr "range");
      ("bounds", VList [VInt 0; VInt 10])]]
    None None false None ["auc >= 80%"] None
    [{| oc_metric := {| Metric_name := "auc" |}; oc_op := GEQ;
        oc_bound := S754_finite false 5629499534213120 (-46);
        relative := true |}] _ _)
    [RangeParameter "x" INT (VInt 0) (VInt 10) (VBool false) (VBool false)]
    _)); vm_compute; reflexivity.
Defined.

(** ** Evaluation normaliser *)

(** A reading of [numpy_type_to_python_type] for the examples: the Python
    number with the same value. *)
Definition np_item (v : pyval) : pyval :=
  match v with
  | VNpFloat _ x => VFloat x
  | VNpInt _ n => VInt n
  | _ => v
  end.

(** The spec's dispatch sends every shape other than a mapping, a list, a
    2-tuple and a number to a failure. A 3-tuple is none of these and is
    wrapped like a pair. *)
Lemma three_tuple_is_wrapped :
  ~ fails_with_ValidationError
      (raw_data_to_evaluation np_item (VTuple [VInt 1; VInt 2; VInt 3])
         "loss" None None).
Proof. vm_compute. tauto. Qed.

(** C8, amended. [raw_data_to_evaluation] dispatches on the runtime class
    of [raw_data] alone: a [dict] is returned unchanged unless one of its
    values is a [dict] (then [ValueError]); a [list] is returned unchanged;
    a [tuple] of any length becomes [{objective_name: raw_data}]; an
    instance of [float] or [int], which includes [bool] and
    [numpy.float64], becomes [{objective_name: (raw_data, None)}]; a
    [numpy.float32], [numpy.int32] or [numpy.int64] becomes
    [{objective_name: (numpy_type_to_python_type(raw_data), None)}]; and
    [None], a [str] and every other NumPy scalar fail with [ValueError]. *)
Theorem raw_data_dispatch_by_class
    (numpy_type_to_python_type : pyval -> pyval)
    (raw_data : pyval) (objective_name : string)
    (start_time end_time : option Z) :
  raw_data_to_evaluation numpy_type_to_python_type raw_data objective_name
    start_time end_time
  = match raw_data with
    | VDict d =>
        if existsb (fun x => bool_decide (type_of x = dict_)) (values d)
        then Raise (ValueError RawDataOneArm)
        else Ok raw_data
    | VList _ => Ok raw_data
    | VTuple _ => Ok (VDict [(objective_name, raw_data)])
    | VBool _ | VInt _ | VFloat _ | VNpFloat float64 _ =>
        Ok (VDict [(objective_name, VTuple [raw_data; VNone])])
    | VNpFloat float32 _ | VNpInt int32 _ | VNpInt int64 _ =>
        Ok (VDict [(objective_name,
                    VTuple [numpy_type_to_python_type raw_data; VNone])])
    | VNone | VStr _ | VNpFloat float16 _ | VNpInt int8 _ | VNpInt int16 _ =>
        Raise (ValueError RawDataInvalidType)
    end.
Proof.
  destruct raw_data as [| | | | | | |d|[]|[]]; try reflexivity.
  unfold raw_data_to_evaluation. f_equal.
  assert (forall l : list pyval,
    existsb (fun x => isinstance x dict_) l
    = existsb (fun x => bool_decide (type_of x = dict_)) l) as ->; [|done].
  induction l as [|x l IH]; [done|]. simpl. rewrite IH. f_equal.
  by destruct x as [| | | | | | | |[]|[]].
Qed.

(** The spec's two examples of the normaliser. *)
Example raw_data_scalar :
  raw_data_to_evaluation np_item
    (VFloat (S754_finite false 7566047373982433 (-54))) "loss" None None
  = Ok (VDict [("loss",
                VTuple [VFloat (S754_finite false 7566047373982433 (-54));
                        VNone])])
  /\ PyFloat.of_str "0.42" = Some (S754_finite false 7566047373982433 (-54)).
Proof. split; vm_compute; reflexivity. Qed.

Example raw_data_nested_mapping :
  raw_data_to_evaluation np_item
    (VDict [("a", VInt 1); ("b", VDict [("c", VInt 2)])]) "x" None None
  = Raise (ValueError RawDataOneArm).
Proof. reflexivity. Qed.

(** ** Data table *)

Lemma isinstance_exact (v : pyval) (t : pytype) :
  t = dict_ \/ t = list_ ->
  isinstance v t = bool_decide (type_of v = t).
Proof.
  intros [-> | ->]; by destruct v as [| | | | | | | |[]|[]].
Qed.

Lemma forallb_ext_elem_of {A} (f g : A -> bool) (l : list A) :
  (forall x, x ∈ l -> f x = g x) -> forallb f l = forallb g l.
Proof.
  induction l as [|x l IH]; [done|]. intros H. simpl.
  rewrite (H x) by (apply elem_of_cons; by left).
  rewrite IH; [done|]. intros y Hy. apply H, elem_of_cons. by right.
Qed.

(** In a dictionary, looking up each key finds each value. *)
Lemma all_isinstance_values (d : dict pyval) (t : pytype) :
  NoDup (keys d) ->
  all_isinstance d t = forallb (fun v => isinstance v t) (values d).
Proof.
  unfold all_isinstance, keys, values.
  induction d as [|[k v] d IH]; [done|].
  rewrite !fmap_cons. cbn [fst snd]. intros [Hk Hd]%NoDup_cons.
  cbn [forallb get_item]. rewrite bool_decide_eq_true_2 by done.
  cbn [from_option]. f_equal. rewrite <- IH by done.
  apply forallb_ext_elem_of. intros x Hx.
  rewrite bool_decide_eq_false_2; [done|]. by intros ->.
Qed.

Lemma forallb_type_of (l : list pyval) (t : pytype) :
  forallb (fun v => bool_decide (type_of v = t)) l = true
  <-> Forall (fun v => type_of v = t) l.
Proof.
  induction l as [|x l IH]; simpl.
  - split; [by constructor|done].
  - rewrite andb_true_iff, bool_decide_eq_true, IH, Forall_cons. tauto.
Qed.

Lemma all_isinstance_Forall (d : dict pyval) (t : pytype) :
  t = dict_ \/ t = list_ ->
  NoDup (keys d) ->
  all_isinstance d t = true <-> Forall (fun v => type_of v = t) (values d).
Proof.
  intros Ht Hd. rewrite all_isinstance_values by done.
  rewrite <- forallb_type_of.
  erewrite forallb_ext_elem_of; [done|].
  intros x _. by apply isinstance_exact.
Qed.

(** C9. [data_from_evaluations] sends evaluations that are all mappings to
    the no-fidelity constructor and evaluations that are all lists to the
    with-fidelity constructor, each with [evaluations], [trial_index],
    [sample_sizes], [start_time] and [end_time] as they were given; when
    some evaluation is not a mapping and some evaluation is not a list, in
    particular for a mixture of mappings and lists, it fails with
    [ValueError]. *)
Theorem data_from_evaluations_homogeneous
    (Data : Type)
    (Data_from_evaluations Data_from_fidelity_evaluations :
       dict pyval -> Z -> dict Z -> option Z -> option Z -> result Data)
    (evaluations : dict pyval) (trial_index : Z) (sample_sizes : dict Z)
    (start_time end_time : option Z) :
  NoDup (keys evaluations) ->
  let r := data_from_evaluations Data Data_from_evaluations
             Data_from_fidelity_evaluations evaluations trial_index
             sample_sizes start_time end_time in
  (Forall (fun v => type_of v = dict_) (values evaluations) ->
   r = Data_from_evaluations evaluations trial_index sample_sizes
         start_time end_time)
  /\ (evaluations ≠ [] ->
      Forall (fun v => type_of v = list_) (values evaluations) ->
      r = Data_from_fidelity_evaluations evaluations trial_index
            sample_sizes start_time end_time)
  /\ ((exists v, v ∈ values evaluations /\ type_of v ≠ dict_) ->
      (exists v, v ∈ values evaluations /\ type_of v ≠ list_) ->
      r = Raise (ValueError MixedEvaluations)
      /\ fails_with_ValidationError r)
  /\ ((exists v, v ∈ values evaluations /\ type_of v = dict_) ->
      (exists v, v ∈ values evaluations /\ type_of v = list_) ->
      r = Raise (ValueError MixedEvaluations)).
Proof.
  intros Hd r. subst r. unfold data_from_evaluations.
  pose proof (all_isinstance_Forall evaluations dict_ (or_introl eq_refl) Hd)
    as Hdict.
  pose proof (all_isinstance_Forall evaluations list_ (or_intror eq_refl) Hd)
    as Hlist.
  assert (forall t, (exists v, v ∈ values evaluations /\ type_of v ≠ t) ->
    ~ Forall (fun v => type_of v = t) (values evaluations)) as Hnot.
  { intros t (v & Hv & Ht) Hall. rewrite Forall_forall in Hall. eauto. }
  assert ((exists v, v ∈ values evaluations /\ type_of v ≠ dict_) ->
          (exists v, v ∈ values evaluations /\ type_of v ≠ list_) ->
          (if all_isinstance evaluations dict_
           then Data_from_evaluations evaluations trial_index sample_sizes
                  start_time end_time
           else if all_isinstance evaluations list_
           then Data_from_fidelity_evaluations evaluations trial_index
                  sample_sizes start_time end_time
           else Raise (ValueError MixedEvaluations))
          = Raise (ValueError MixedEvaluations)) as Hmixed.
  { intros Hnd%Hnot Hnl%Hnot.
    rewrite (not_true_is_false (all_isinstance evaluations dict_))
      by (by intros ?%Hdict).
    by rewrite (not_true_is_false (all_isinstance evaluations list_))
      by (by intros ?%Hlist). }
  split; [|split; [|split]].
  - intros Hall%Hdict. by rewrite Hall.
  - intros Hne Hall.
    rewrite (not_true_is_false (all_isinstance evaluations dict_)).
    + apply Hlist in Hall. by rewrite Hall.
    + intros Hall'%Hdict. destruct evaluations as [|[k v] d]; [done|].
      apply Forall_cons in Hall as [Hv _].
      apply Forall_cons in Hall' as [Hv' _]. simpl in *. congruence.
  - intros Hnd Hnl. by rewrite Hmixed.
  - intros (v & Hv & Hvd) (w & Hw & Hwl). apply Hmixed.
    + exists w. split; [done|congruence].
    + exists v. split; [done|congruence].
Qed.

Definition data_log : Type :=
  string * dict pyval * Z * dict Z * option Z * option Z.

Lemma data_from_evaluations_homogeneous_witness :
  let f (entry : string) e t s a b : result data_log :=
    Ok (entry, e, t, s, a, b) in
  let one := S754_finite false 4503599627370496 (-52) in
  let mixed : dict pyval :=
    [("arm1", VDict [("m", VTuple [VFloat one; VFloat one])]);
     ("arm2", VList [VTuple [VDict [("fidelity", VInt 1)];
                             VDict [("m", VTuple [VFloat one; VFloat one])]]])]
  in
  data_from_evaluations data_log (f "from_evaluations")
    (f "from_fidelity_evaluations") mixed 0 [("arm1", 3%Z)] None None
  = Raise (ValueError MixedEvaluations).
Proof.
  intros f one mixed.
  refine (proj2 (proj2 (proj2 (data_from_evaluations_homogeneous data_log
    (f "from_evaluations") (f "from_fidelity_evaluations") mixed 0
    [("arm1", 3%Z)] None None _))) _ _).
  - apply (bool_decide_unpack _). vm_compute. exact I.
  - eexists. split; [apply elem_of_cons; left; reflexivity|reflexivity].
  - eexists. split; [apply elem_of_cons; right; apply elem_of_cons; left;
                     reflexivity|reflexivity].
Defined.

(** ** Sum and weighted-sum constraints *)

(** The tokens [p1 + p2 + ... + pn] of a sum. *)
Fixpoint sum_tokens (ps : list string) : list string :=
  match ps with
  | [] => []
  | [p] => [p]
  | p :: ps' => p :: "+" :: sum_tokens ps'
  end.

(** The tokens [w1 * p1 + w2 * p2 + ... + wn * pn] of a weighted sum, from
    its groups [(w, p)]. *)
Fixpoint weighted_tokens (gs : list (string * string)) : list string :=
  match gs with
  | [] => []
  | [(w, p)] => [w; "*"; p]
  | (w, p) :: gs' => w :: "*" :: p :: "+" :: weighted_tokens gs'
  end.

(** What the weighted loop rejects at index [idx]. *)
Definition grammar_violation (parameter_names : list string) (idx : nat)
    (token : string) : Prop :=
  (idx mod 4 = 0 /\ PyFloat.of_str token = None)
  \/ (idx mod 4 = 1 /\ token ≠ "*")
  \/ (idx mod 4 = 2 /\ token ∉ parameter_names)
  \/ (idx mod 4 = 3 /\ token ≠ "+").

Lemma mod_shift (k idx : nat) : (k + idx) mod k = idx mod k.
Proof.
  replace (k + idx) with (idx + 1 * k) by lia. apply Nat.Div0.mod_add.
Qed.

(** The loops depend on the index through its residue only. *)
Lemma sum_loop_shift names tokens : forall idx used,
  sum_loop names (2 + idx) tokens used = sum_loop names idx tokens used.
Proof.
  induction tokens as [|t tokens IH]; intros idx used; [done|].
  cbn [sum_loop]. rewrite mod_shift.
  change (S (2 + idx)) with (2 + S idx). by rewrite !IH.
Qed.

Lemma parameter_loop_shift names tokens : forall idx up uw,
  parameter_loop names (4 + idx) tokens up uw
  = parameter_loop names idx tokens up uw.
Proof.
  induction tokens as [|t tokens IH]; intros idx up uw; [done|].
  cbn [parameter_loop]. rewrite mod_shift.
  change (S (4 + idx)) with (4 + S idx).
  repeat case_bool_decide; result_step; rewrite ?IH; try done.
  destruct (PyFloat.of_str t); result_step; by rewrite ?IH.
Qed.

Lemma sum_loop_sum_tokens names ps :
  Forall (fun p => p ∈ names) ps ->
  forall used, sum_loop names 0 (sum_tokens ps) used = Ok (used ++ ps).
Proof.
  induction 1 as [|p ps Hp Hps IH]; intros used.
  - by rewrite app_nil_r.
  - destruct ps as [|q ps].
    + cbn [sum_tokens sum_loop].
      rewrite (bool_decide_eq_true_2 (0 mod 2 = 0)) by done.
      by rewrite bool_decide_eq_true_2 by done.
    + change (sum_tokens (p :: q :: ps))
        with (p :: "+" :: sum_tokens (q :: ps)).
      cbn [sum_loop].
      rewrite (bool_decide_eq_true_2 (0 mod 2 = 0)) by done.
      rewrite (bool_decide_eq_true_2 (p ∈ names)) by done. result_step.
      rewrite (bool_decide_eq_false_2 (1 mod 2 = 0)) by done.
      rewrite (bool_decide_eq_true_2 ("+" = "+")) by done. result_step.
      rewrite (sum_loop_shift names _ 0), IH. by rewrite <- app_assoc.
Qed.

Lemma parameter_loop_weighted_tokens names gs xs :
  Forall2 (fun g x => PyFloat.of_str g.1 = Some x) gs xs ->
  Forall (fun g => g.2 ∈ names) gs ->
  forall up uw,
    parameter_loop names 0 (weighted_tokens gs) up uw
    = Ok (up ++ gs.*2, uw ++ xs).
Proof.
  induction 1 as [|[w p] x gs xs Hw Hgs IH]; intros Hnames up uw.
  - by rewrite !app_nil_r.
  - apply Forall_cons in Hnames as [Hp Hnames]. simpl in Hw, Hp.
    assert (parameter_loop names 0 (w :: "*" :: p :: []) up uw
            = Ok (up ++ [p], uw ++ [x])) as Hone.
    { cbn [parameter_loop]. rewrite !(bool_decide_eq_true_2 (0 mod 4 = 0))
        by done.
      rewrite Hw. result_step.
      rewrite (bool_decide_eq_false_2 (1 mod 4 = 0)) by done.
      rewrite (bool_decide_eq_true_2 (1 mod 4 = 1)) by done.
      rewrite (bool_decide_eq_true_2 ("*" = "*")) by done. result_step.
      rewrite (bool_decide_eq_false_2 (2 mod 4 = 0)) by done.
      rewrite (bool_decide_eq_false_2 (2 mod 4 = 1)) by done.
      rewrite (bool_decide_eq_true_2 (2 mod 4 = 2)) by done.
      by rewrite bool_decide_eq_true_2 by done. }
    destruct gs as [|g gs].
    + apply Forall2_nil_inv_l in Hgs as ->. exact Hone.
    + change (weighted_tokens ((w, p) :: g :: gs))
        with (w :: "*" :: p :: "+" :: weighted_tokens (g :: gs)).
      cbn [parameter_loop]. rewrite !(bool_decide_eq_true_2 (0 mod 4 = 0))
        by done.
      rewrite Hw. result_step.
      rewrite (bool_decide_eq_false_2 (1 mod 4 = 0)) by done.
      rewrite (bool_decide_eq_true_2 (1 mod 4 = 1)) by done.
      rewrite (bool_decide_eq_true_2 ("*" = "*")) by done. result_step.
      rewrite (bool_decide_eq_false_2 (2 mod 4 = 0)) by done.
      rewrite (bool_decide_eq_false_2 (2 mod 4 = 1)) by done.
      rewrite (bool_decide_eq_true_2 (2 mod 4 = 2)) by done.
      rewrite (bool_decide_eq_true_2 (p ∈ names)) by done. result_step.
      rewrite (bool_decide_eq_false_2 (3 mod 4 = 0)) by done.
      rewrite (bool_decide_eq_false_2 (3 mod 4 = 1)) by done.
      rewrite (bool_decide_eq_false_2 (3 mod 4 = 2)) by done.
      rewrite (bool_decide_eq_true_2 ("+" = "+")) by done. result_step.
      rewrite (parameter_loop_shift names _ 0), IH by done.
      by rewrite <- !app_assoc.
Qed.

(** *** The shape predicates on [pre ++ [o; b]] *)

Lemma order_const_long tokens : 5 ≤ length tokens -> order_const tokens = false.
Proof.
  intros H. unfold order_const. rewrite bool_decide_eq_false_2; [done|lia].
Qed.

Lemma length_app_2 {A} (pre : list A) (o b : A) :
  length (pre ++ [o; b]) = 2 + length pre.
Proof. rewrite length_app. simpl. lia. Qed.

Lemma sum_const_app pre o b :
  sum_const (pre ++ [o; b])
  = bool_decide (3 ≤ length pre)%nat && bool_decide (length pre mod 2 = 1)
    && is_comparison (Some o) && negb (bool_decide ("*" ∈ pre ++ [o; b])).
Proof.
  unfold sum_const.
  rewrite (proj2 (index_app_last2 pre o b)), length_app_2, mod_shift.
  do 3 f_equal. apply bool_decide_ext. lia.
Qed.

Lemma parameter_const_app pre o b :
  parameter_const (pre ++ [o; b])
  = bool_decide (3 ≤ length pre)%nat && bool_decide (length pre mod 2 = 1)
    && is_comparison (Some o) && bool_decide ("*" ∈ pre ++ [o; b]).
Proof.
  unfold parameter_const.
  rewrite (proj2 (index_app_last2 pre o b)), length_app_2, mod_shift.
  do 3 f_equal. apply bool_decide_ext. lia.
Qed.

Lemma comparison_at_app pre o b op :
  get_item COMPARISON_OPS o = Some op ->
  comparison_at (pre ++ [o; b]) (-2) = Ok op.
Proof.
  intros Ho. unfold comparison_at.
  rewrite (proj2 (index_app_last2 pre o b)). result_step. by rewrite Ho.
Qed.

Lemma odd_of_half (n k : nat) : n + 1 = 2 * k -> n mod 2 = 1.
Proof.
  intros H. replace n with (1 + (k - 1) * 2) by lia.
  by rewrite Nat.Div0.mod_add.
Qed.

Lemma length_sum_tokens ps : ps ≠ [] -> length (sum_tokens ps) + 1 = 2 * length ps.
Proof.
  induction ps as [|p ps IH]; [done|]. intros _.
  destruct ps as [|q ps]; [done|].
  change (sum_tokens (p :: q :: ps)) with (p :: "+" :: sum_tokens (q :: ps)).
  cbn [length]. cbn [length] in IH. specialize (IH ltac:(done)). lia.
Qed.

Lemma length_weighted_tokens gs :
  gs ≠ [] -> length (weighted_tokens gs) + 1 = 4 * length gs.
Proof.
  induction gs as [|[w p] gs IH]; [done|]. intros _.
  destruct gs as [|g gs]; [done|].
  change (weighted_tokens ((w, p) :: g :: gs))
    with (w :: "*" :: p :: "+" :: weighted_tokens (g :: gs)).
  cbn [length]. cbn [length] in IH. specialize (IH ltac:(done)). lia.
Qed.

Lemma elem_of_sum_tokens t ps : t ∈ sum_tokens ps -> t = "+" \/ t ∈ ps.
Proof.
  induction ps as [|p ps IH]; [by intros ?%elem_of_nil|].
  destruct ps as [|q ps].
  - intros ->%list_elem_of_singleton. right. apply elem_of_cons. by left.
  - change (sum_tokens (p :: q :: ps))
      with (p :: "+" :: sum_tokens (q :: ps)).
    intros [->|[->|H]%elem_of_cons]%elem_of_cons.
    + right. apply elem_of_cons. by left.
    + by left.
    + destruct (IH H) as [?|?]; [by left|]. right. apply elem_of_cons.
      by right.
Qed.

Lemma star_in_weighted_tokens gs : gs ≠ [] -> "*" ∈ weighted_tokens gs.
Proof.
  destruct gs as [|[w p] [|g gs]]; [done| |]; intros _;
    apply elem_of_cons; right; apply elem_of_cons; by left.
Qed.

(** *** The parameters of a sum constraint *)

Lemma get_item_of_entry {V} (d : dict V) k v :
  NoDup (keys d) -> (k, v) ∈ d -> get_item d k = Some v.
Proof.
  unfold keys. induction d as [|[k' v'] d IH]; [by intros _ ?%elem_of_nil|].
  rewrite fmap_cons. cbn [fst]. intros [Hk Hd]%NoDup_cons.
  cbn [get_item]. intros [[= -> ->]|Hin]%elem_of_cons.
  - by rewrite bool_decide_eq_true_2.
  - rewrite bool_decide_eq_false_2; [by apply IH|].
    intros ->. apply Hk. apply list_elem_of_fmap. by exists (k, v).
Qed.

Lemma comprehension_get_item {V} (d l : dict V) :
  NoDup (keys d) -> l ⊆ d ->
  comprehension (fun p => or_raise (get_item d p) (KeyError p)) (keys l)
  = Ok (values l).
Proof.
  intros Hd. unfold keys, values.
  induction l as [|[k v] l IH]; [done|]. intros Hl.
  rewrite !fmap_cons. cbn [comprehension fst snd].
  rewrite (get_item_of_entry d k v Hd) by (apply Hl, elem_of_cons; by left).
  result_step. rewrite IH; [done|].
  intros x Hx. apply Hl, elem_of_cons. by right.
Qed.

Lemma filter_keys {V} (P : string -> Prop) `{!forall k, Decision (P k)}
    (d : dict V) :
  filter P (keys d) = keys (filter (fun kv => P kv.1) d).
Proof.
  unfold keys. induction d as [|[k v] d IH]; [done|].
  rewrite fmap_cons. cbn [fst].
  rewrite (filter_cons P), (filter_cons (fun kv : string * V => P kv.1)).
  cbn [fst]. destruct (decide (P k)); [rewrite fmap_cons|]; by rewrite IH.
Qed.

Lemma of_str_star : PyFloat.of_str "*" = None.
Proof. reflexivity. Qed.

Lemma sum_from_tokens (ps : list string) (o b : string) (op : ComparisonOp)
    (bound : PyFloat.float) (parameters : dict parameter) :
  2 ≤ length ps ->
  Forall (fun p => p ∈ keys parameters) ps ->
  "*" ∉ ps ->
  get_item COMPARISON_OPS o = Some op ->
  PyFloat.of_str b = Some bound ->
  NoDup (keys parameters) ->
  constraint_from_tokens (sum_tokens ps ++ [o; b]) parameters
  = Ok (SumConstraint
          (values (filter (fun kv => kv.1 ∈ ps) parameters))
          (bool_decide (op = LEQ)) bound).
Proof.
  intros Hlen Hps Hstar Ho Hb Hd.
  assert (ps ≠ []) as Hne by (intros ->; simpl in Hlen; lia).
  pose proof (length_sum_tokens ps Hne) as Hl.
  assert (o = "<=" \/ o = ">=") as Hcmp.
  { apply is_comparison_iff, bool_decide_eq_true.
    by apply (get_item_elem_of _ _ _ Ho). }
  assert (sum_const (sum_tokens ps ++ [o; b]) = true) as Hsum.
  { rewrite sum_const_app.
    rewrite bool_decide_eq_true_2 by lia.
    rewrite bool_decide_eq_true_2 by (by eapply odd_of_half).
    rewrite (proj2 (is_comparison_iff o) Hcmp).
    rewrite bool_decide_eq_false_2; [done|].
    rewrite elem_of_app, !elem_of_cons, elem_of_nil.
    intros [[?|?]%elem_of_sum_tokens|[<-|[<-|[]]]]; [done|done| |].
    - by destruct Hcmp.
    - by rewrite of_str_star in Hb. }
  unfold constraint_from_tokens.
  rewrite order_const_long by (rewrite length_app_2; lia).
  rewrite Hsum. result_step.
  rewrite (proj1 (index_app_last2 _ o b)). result_step.
  rewrite Hb. result_step.
  rewrite drop_last2_app, sum_loop_sum_tokens by done. result_step.
  rewrite app_nil_l, filter_keys, comprehension_get_item;
    [|done|apply list_subseteq_filter].
  result_step. rewrite (comparison_at_app _ _ _ _ Ho). by result_step.
Qed.

Definition ten : PyFloat.float := S754_finite false 5629499534213120 (-49).

(** C3. For a sum constraint string [p1 + ... + pn op bound], with at least
    two known parameter names, none of them [*], the parameters of the
    returned [SumConstraint] are the values of [known_parameters] whose name
    is one of the [pi], in the order of [known_parameters] and not in the
    order of the string; [is_upper_bound] tells whether [op] is [<=], and
    the bound is the trailing token read as a float. [x1 + x2 <= 10] and
    [x2 + x1 <= 10] over [{x1, x2}] both give the parameters [[x1, x2]],
    upper bound, 10.0. *)
Theorem sum_constraint_follows_known_parameters
    (representation : string) (ps : list string) (o b : string)
    (op : ComparisonOp) (bound : PyFloat.float)
    (parameters : dict parameter) :
  PyStr.split representation = sum_tokens ps ++ [o; b] ->
  2 ≤ length ps ->
  Forall (fun p => p ∈ keys parameters) ps ->
  "*" ∉ ps ->
  get_item COMPARISON_OPS o = Some op ->
  PyFloat.of_str b = Some bound ->
  NoDup (keys parameters) ->
  constraint_from_str representation parameters
  = Ok (SumConstraint
          (values (filter (fun kv => kv.1 ∈ ps) parameters))
          (bool_decide (op = LEQ)) bound)
  /\ constraint_from_str "x1 + x2 <= 10" x1_x2
     = Ok (SumConstraint [x1; x2] true ten)
  /\ constraint_from_str "x2 + x1 <= 10" x1_x2
     = Ok (SumConstraint [x1; x2] true ten).
Proof.
  intros Hs Hlen Hps Hstar Ho Hb Hd. split; [|split; reflexivity].
  unfold constraint_from_str. rewrite Hs. by apply sum_from_tokens.
Qed.

Lemma sum_constraint_follows_known_parameters_witness :
  constraint_from_str "x2 + x1 + x2 >= 10" x1_x2
  = Ok (SumConstraint [x1; x2] false ten).
Proof.
  refine (proj1 (sum_constraint_follows_known_parameters
    "x2 + x1 + x2 >= 10" ["x2"; "x1"; "x2"] ">=" "10" GEQ ten x1_x2
    _ _ _ _ _ _ _)).
  - reflexivity.
  - simpl. lia.
  - apply (bool_decide_unpack _). vm_compute. exact I.
  - apply (bool_decide_unpack _). vm_compute. exact I.
  - reflexivity.
  - vm_compute. reflexivity.
  - apply (bool_decide_unpack _). vm_compute. exact I.
Defined.

(** *** The weighted branch *)

Lemma weighted_from_tokens (gs : list (string * string))
    (xs : list PyFloat.float) (o b : string) (bound : PyFloat.float)
    (parameters : dict parameter) :
  gs ≠ [] ->
  Forall2 (fun g x => PyFloat.of_str g.1 = Some x) gs xs ->
  Forall (fun g => g.2 ∈ keys parameters) gs ->
  o = "<=" \/ o = ">=" ->
  PyFloat.of_str b = Some bound ->
  constraint_from_tokens (weighted_tokens gs ++ [o; b]) parameters
  = Ok (ParameterConstraint (of_pairs (zip gs.*2 xs)) bound).
Proof.
  intros Hne Hxs Hgs Hcmp Hb.
  pose proof (length_weighted_tokens gs Hne) as Hl.
  assert (length gs ≠ 0) as Hlen by (by destruct gs).
  assert ("*" ∈ weighted_tokens gs ++ [o; b]) as Hstar.
  { apply elem_of_app. left. by apply star_in_weighted_tokens. }
  assert (sum_const (weighted_tokens gs ++ [o; b]) = false) as Hsum.
  { rewrite sum_const_app, (bool_decide_eq_true_2 _ Hstar).
    by rewrite andb_false_r. }
  assert (parameter_const (weighted_tokens gs ++ [o; b]) = true) as Hpar.
  { rewrite parameter_const_app, (bool_decide_eq_true_2 _ Hstar).
    rewrite bool_decide_eq_true_2 by lia.
    rewrite bool_decide_eq_true_2
      by (apply (odd_of_half _ (2 * length gs)); lia).
    by rewrite (proj2 (is_comparison_iff o) Hcmp). }
  unfold constraint_from_tokens.
  rewrite order_const_long by (rewrite length_app_2; lia).
  rewrite Hsum, Hpar. result_step.
  rewrite (proj1 (index_app_last2 _ o b)). result_step.
  rewrite Hb. result_step.
  rewrite drop_last2_app.
  by rewrite (parameter_loop_weighted_tokens _ gs xs) by done.
Qed.

(** Every exception of the weighted loop is a validation error, and a
    token that violates the grammar makes the loop raise. *)
Lemma parameter_loop_violation names tokens : forall idx up uw i token,
  tokens !! i = Some token ->
  grammar_violation names (idx + i) token ->
  fails_with_ValidationError (parameter_loop names idx tokens up uw).
Proof.
  induction tokens as [|t tokens IH]; intros idx up uw i token; [done|].
  destruct i as [|i]; cbn [lookup list_lookup parameter_loop].
  - intros [= ->]. rewrite Nat.add_0_r.
    intros [[H0 Hv]|[[H1 Hv]|[[H2 Hv]|[H3 Hv]]]].
    + rewrite bool_decide_eq_true_2 by done. by rewrite Hv.
    + rewrite bool_decide_eq_false_2 by lia.
      rewrite bool_decide_eq_true_2 by done.
      by rewrite (bool_decide_eq_false_2 (token = "*")).
    + rewrite !(bool_decide_eq_false_2 (idx mod 4 = _)) by lia.
      rewrite bool_decide_eq_true_2 by done.
      by rewrite (bool_decide_eq_false_2 (token ∈ names)).
    + rewrite !(bool_decide_eq_false_2 (idx mod 4 = _)) by lia.
      by rewrite (bool_decide_eq_false_2 (token = "+")).
  - intros Hi Hv. replace (idx + S i) with (S idx + i) in Hv by lia.
    repeat case_bool_decide; result_step; eauto; try done.
    destruct (PyFloat.of_str t); result_step; eauto; done.
Qed.

Lemma index_last_is_Some {A} (l : list A) :
  l ≠ [] -> is_Some (PyList.index l (-1)).
Proof.
  induction l as [|x pre _] using rev_ind; [done|]. intros _.
  unfold PyList.index. rewrite length_app. simpl length.
  replace (-1 <? 0)%Z with true by done.
  rewrite (proj2 (Z.ltb_ge _ _)) by lia.
  replace (Z.to_nat _) with (length pre + 0) by lia.
  rewrite lookup_app_r by lia. replace (_ - _) with 0 by lia. by eexists.
Qed.

Lemma weighted_violation_fails (tokens : list string)
    (parameters : dict parameter) (i : nat) (token : string) :
  parameter_const tokens = true ->
  PyList.drop_last2 tokens !! i = Some token ->
  grammar_violation (keys parameters) i token ->
  fails_with_ValidationError (constraint_from_tokens tokens parameters).
Proof.
  intros Hpar Hi Hv. unfold constraint_from_tokens.
  assert (5 ≤ length tokens /\ "*" ∈ tokens) as [Hlen Hstar].
  { unfold parameter_const in Hpar.
    rewrite !andb_true_iff, !bool_decide_eq_true in Hpar. tauto. }
  assert (sum_const tokens = false) as ->.
  { unfold sum_const. rewrite (bool_decide_eq_true_2 _ Hstar).
    by rewrite andb_false_r. }
  rewrite order_const_long, Hpar by done. result_step.
  destruct (index_last_is_Some tokens) as [last ->].
  { intros ->. simpl in Hlen. lia. }
  result_step. destruct (PyFloat.of_str last); [|done]. result_step.
  pose proof (parameter_loop_violation (keys parameters) _ 0 [] [] i token
                Hi Hv) as Hloop.
  by destruct (parameter_loop _ _ _ _ _) as [[??]|e].
Qed.

(** *** The dictionary of a weighted constraint *)

Lemma set_item_fresh {V} (d : dict V) k v :
  k ∉ keys d -> set_item d k v = d ++ [(k, v)].
Proof.
  unfold keys. induction d as [|[k' v'] d IH]; [done|].
  rewrite fmap_cons. cbn [fst set_item]. intros Hk.
  rewrite bool_decide_eq_false_2.
  - rewrite IH; [done|]. intros ?. apply Hk, elem_of_cons. by right.
  - intros ->. apply Hk, elem_of_cons. by left.
Qed.

Lemma fold_set_item_fresh {V} (l acc : dict V) :
  NoDup (keys (acc ++ l)) ->
  fold_left (fun d kv => set_item d kv.1 kv.2) l acc = acc ++ l.
Proof.
  revert acc. induction l as [|[k v] l IH]; intros acc Hnd.
  - by rewrite app_nil_r.
  - cbn [fold_left fst snd].
    replace (acc ++ (k, v) :: l) with ((acc ++ [(k, v)]) ++ l) in *
      by (by rewrite <- app_assoc).
    rewrite set_item_fresh; [by apply IH|].
    unfold keys in *. rewrite !fmap_app in Hnd.
    apply NoDup_app in Hnd as [Hnd _].
    apply NoDup_app in Hnd as (_ & Hnd & _).
    intros Hk. apply (Hnd k Hk). apply elem_of_cons. by left.
Qed.

(** Pairs with distinct names make the dictionary that lists them. *)
Lemma of_pairs_NoDup {V} (l : list (string * V)) :
  NoDup (keys l) -> of_pairs l = l.
Proof. intros H. unfold of_pairs. by rewrite fold_set_item_fresh. Qed.

Definition half : PyFloat.float := S754_finite false 4503599627370496 (-53).
Definition minus_one : PyFloat.float :=
  S754_finite true 4503599627370496 (-52).
Definition three : PyFloat.float := S754_finite false 6755399441055744 (-51).

(** C4. A weighted-sum string whose tokens before the operator are the
    groups [w * p], joined by [+], with every [w] a float literal and every
    [p] a known parameter name, parses to a [ParameterConstraint] built from
    the pairs of name and weight, in order, and from the trailing token read
    as a float; for distinct names the dictionary lists exactly those pairs.
    In a string of the weighted shape, a token before the operator that is
    not a number at an index 0 mod 4, not [*] at 1 mod 4, not a known name
    at 2 mod 4, or not [+] at 3 mod 4 makes the call fail with a validation
    error. [0.5 * x1 + -1.0 * x2 <= 3] over [{x1, x2}] gives
    [{x1: 0.5, x2: -1.0}] and the bound 3.0. *)
Theorem weighted_constraint_grammar
    (representation : string) (parameters : dict parameter) :
  (forall gs xs o b bound,
     PyStr.split representation = weighted_tokens gs ++ [o; b] ->
     gs ≠ [] ->
     Forall2 (fun g x => PyFloat.of_str g.1 = Some x) gs xs ->
     Forall (fun g => g.2 ∈ keys parameters) gs ->
     o = "<=" \/ o = ">=" ->
     PyFloat.of_str b = Some bound ->
     constraint_from_str representation parameters
     = Ok (ParameterConstraint (of_pairs (zip gs.*2 xs)) bound)
     /\ (NoDup gs.*2 -> of_pairs (zip gs.*2 xs) = zip gs.*2 xs))
  /\ (forall i token,
        parameter_const (PyStr.split representation) = true ->
        PyList.drop_last2 (PyStr.split representation) !! i = Some token ->
        grammar_violation (keys parameters) i token ->
        fails_with_ValidationError
          (constraint_from_str representation parameters))
  /\ constraint_from_str "0.5 * x1 + -1.0 * x2 <= 3" x1_x2
     = Ok (ParameterConstraint [("x1", half); ("x2", minus_one)] three).
Proof.
  split; [|split; [|reflexivity]].
  - intros gs xs o b bound Hs Hne Hxs Hgs Hcmp Hb. split.
    + unfold constraint_from_str. rewrite Hs. by apply weighted_from_tokens.
    + intros Hnd. apply of_pairs_NoDup. unfold keys.
      rewrite fst_zip; [done|].
      by rewrite length_fmap, (Forall2_length _ _ _ Hxs).
  - intros i token Hpar Hi Hv. by eapply weighted_violation_fails.
Qed.

(** A last group cut after its weight is not rejected: the loop reads the
    weight and [zip] drops it. *)
Example truncated_group_is_accepted :
  constraint_from_str "0.5 * x1 + -1.0 <= 3" x1_x2
  = Ok (ParameterConstraint [("x1", half)] three).
Proof. reflexivity. Qed.

(** A name that occurs twice keeps its last weight. *)
Example repeated_name_keeps_last_weight :
  constraint_from_str "0.5 * x1 + -1.0 * x1 <= 3" x1_x2
  = Ok (ParameterConstraint [("x1", minus_one)] three).
Proof. reflexivity. Qed.

Lemma weighted_constraint_grammar_witness :
  constraint_from_str "2 * x2 + 1e-1 * x1 >= 3" x1_x2
  = Ok (ParameterConstraint
          [("x2", S754_finite false 4503599627370496 (-51));
           ("x1", S754_finite false 7205759403792794 (-56))] three)
  /\ fails_with_ValidationError
       (constraint_from_str "0.5 * x1 - 2 * x2 <= 3" x1_x2).
Proof.
  split.
  - refine (proj1 (proj1 (weighted_constraint_grammar
      "2 * x2 + 1e-1 * x1 >= 3" x1_x2)
      [("2", "x2"); ("1e-1", "x1")]
      [S754_finite false 4503599627370496 (-51);
       S754_finite false 7205759403792794 (-56)]
      ">=" "3" three _ _ _ _ _ _)).
    + reflexivity.
    + discriminate.
    + repeat constructor.
    + repeat constructor; apply (bool_decide_unpack _); vm_compute; exact I.
    + by right.
    + vm_compute. reflexivity.
  - refine (proj1 (proj2 (weighted_constraint_grammar
      "0.5 * x1 - 2 * x2 <= 3" x1_x2)) 3 "-" _ _ _).
    + vm_compute. reflexivity.
    + reflexivity.
    + right. right. right. split; [reflexivity|discriminate].
Defined.

(** *** The operator of a weighted constraint *)

Lemma weighted_tokens_operator (pre : list string) (b : string)
    (parameters : dict parameter) :
  "*" ∈ pre ->
  3 ≤ length pre ->
  constraint_from_tokens (pre ++ ["<="; b]) parameters
  = constraint_from_tokens (pre ++ [">="; b]) parameters.
Proof.
  intros Hstar Hlen. unfold constraint_from_tokens.
  rewrite !order_const_long by (rewrite length_app_2; lia).
  rewrite !sum_const_app, !parameter_const_app.
  rewrite !(bool_decide_eq_true_2 ("*" ∈ pre ++ _))
    by (apply elem_of_app; by left).
  rewrite !(proj1 (index_app_last2 pre _ b)), !drop_last2_app.
  change (is_comparison (Some ">=")) with (is_comparison (Some "<=")).
  cbn [negb]. by rewrite !andb_false_r.
Qed.

(** C10. In a string of the weighted shape, a [*] among at least three
    tokens before the operator, replacing [<=] by [>=] changes nothing:
    both strings give the same result; and when the tokens before the
    operator are well-formed groups [w * p] and the bound is a float, both
    give the same [ParameterConstraint], with the same dictionary and the
    same bound. *)
Theorem weighted_operator_not_inspected
    (s_le s_ge : string) (pre : list string) (b : string)
    (parameters : dict parameter) :
  PyStr.split s_le = pre ++ ["<="; b] ->
  PyStr.split s_ge = pre ++ [">="; b] ->
  "*" ∈ pre ->
  3 ≤ length pre ->
  constraint_from_str s_ge parameters = constraint_from_str s_le parameters
  /\ (forall gs xs bound,
        pre = weighted_tokens gs ->
        Forall2 (fun g x => PyFloat.of_str g.1 = Some x) gs xs ->
        Forall (fun g => g.2 ∈ keys parameters) gs ->
        PyFloat.of_str b = Some bound ->
        constraint_from_str s_le parameters
        = Ok (ParameterConstraint (of_pairs (zip gs.*2 xs)) bound)
        /\ constraint_from_str s_ge parameters
           = Ok (ParameterConstraint (of_pairs (zip gs.*2 xs)) bound)).
Proof.
  intros Hle Hge Hstar Hlen. unfold constraint_from_str.
  rewrite Hle, Hge. split; [symmetry; by apply weighted_tokens_operator|].
  intros gs xs bound -> Hxs Hgs Hb.
  assert (gs ≠ []) as Hne by (intros ->; simpl in Hlen; lia).
  split; apply weighted_from_tokens; auto.
Qed.

Lemma weighted_operator_not_inspected_witness :
  constraint_from_str "0.5 * x1 + -1.0 * x2 >= 3" x1_x2
  = constraint_from_str "0.5 * x1 + -1.0 * x2 <= 3" x1_x2
  /\ constraint_from_str "0.5 * x1 + -1.0 * x2 >= 3" x1_x2
     = Ok (ParameterConstraint [("x1", half); ("x2", minus_one)] three).
Proof.
  pose proof (weighted_operator_not_inspected
    "0.5 * x1 + -1.0 * x2 <= 3" "0.5 * x1 + -1.0 * x2 >= 3"
    ["0.5"; "*"; "x1"; "+"; "-1.0"; "*"; "x2"] "3" x1_x2
    eq_refl eq_refl) as H.
  destruct H as [Heq Hwf].
  - apply (bool_decide_unpack _). vm_compute. exact I.
  - simpl. lia.
  - split; [exact Heq|].
    refine (proj2 (Hwf [("0.5", "x1"); ("-1.0", "x2")] [half; minus_one]
                     three eq_refl _ _ _)).
    + repeat constructor.
    + repeat constructor; apply (bool_decide_unpack _); vm_compute; exact I.
    + vm_compute. reflexivity.
Defined.

(** * Further properties of the module *)

Ltac result_step_in H :=
  cbn [mbind result_bind mret result_ret fmap result_fmap or_raise assert
       andb orb negb] in H.

(** A result that is a value or one of the module's deliberate failures. *)
Definition ok_or_ValidationError {A} (r : result A) : Prop :=
  match r with
  | Ok _ => True
  | Raise e => ValidationError e
  end.

Lemma get_item_is_Some {V} (d : dict V) k :
  k ∈ keys d -> is_Some (get_item d k).
Proof.
  unfold keys. induction d as [|[k' v'] d IH]; [by intros ?%elem_of_nil|].
  rewrite fmap_cons. cbn [fst get_item].
  case_bool_decide as Hk; [by eexists|].
  intros [?|?]%elem_of_cons; [by subst|]. by apply IH.
Qed.

Lemma get_item_None {V} (d : dict V) k :
  get_item d k = None -> contains d k = false.
Proof.
  intros H. unfold contains. apply bool_decide_eq_false_2.
  intros [v Hv]%get_item_is_Some. congruence.
Qed.

Lemma contains_get_item {V} (d : dict V) k v :
  get_item d k = Some v -> contains d k = true.
Proof.
  intros H. apply bool_decide_eq_true_2. by eapply get_item_elem_of.
Qed.

(** The list comprehension succeeds exactly when every element does, and
    keeps the order. *)
Lemma comprehension_Ok {A B} (f : A -> result B) (l : list A) (ys : list B) :
  comprehension f l = Ok ys <-> Forall2 (fun x y => f x = Ok y) l ys.
Proof.
  revert ys. induction l as [|x l IH]; intros ys; cbn [comprehension].
  - split; [intros [= <-]; constructor|by intros ->%Forall2_nil_inv_l].
  - destruct (f x) as [y|e] eqn:Hx; result_step.
    + destruct (comprehension f l) as [zs|e] eqn:Hl; result_step.
      * split.
        -- intros [= <-]. constructor; [done|]. by apply IH.
        -- intros (y' & zs' & Hy & Hzs & ->)%Forall2_cons_inv_l.
           apply IH in Hzs. congruence.
      * split; [done|].
        intros (y' & zs' & Hy & Hzs & ->)%Forall2_cons_inv_l.
        apply IH in Hzs. congruence.
    + split; [done|].
      intros (y' & zs' & Hy & Hzs & ->)%Forall2_cons_inv_l. congruence.
Qed.


(** ** Parameter builder *)

#[global] Instance ParameterType_eq_dec : EqDecision ParameterType.
Proof. solve_decision. Defined.

Lemma _get_parameter_type_cases (t : pytype) :
  _get_parameter_type t
  = match t with
    | int_ => Ok INT
    | float_ => Ok FLOAT
    | str_ => Ok STRING
    | bool_ => Ok BOOL
    | _ => Raise (ValueError (NoParameterType t))
    end.
Proof. by destruct t as [| | | | | | | |[]|[]]. Qed.

Lemma _get_parameter_type_Ok (t : pytype) (pt : ParameterType) :
  _get_parameter_type t = Ok pt <-> (pt, t) ∈ PARAMETER_PYTHON_TYPE_MAP.
Proof.
  rewrite _get_parameter_type_cases.
  destruct t as [| | | | | | | |[]|[]], pt; split; intros H;
    try discriminate H; try reflexivity;
    try (by apply (bool_decide_unpack _));
    by (contradict H; apply (bool_decide_unpack _)).
Qed.

Lemma forallb_Forall {A} (f : A -> bool) (l : list A) :
  forallb f l = true <-> Forall (fun x => f x = true) l.
Proof.
  induction l as [|x l IH]; simpl.
  - split; [by constructor|done].
  - rewrite andb_true_iff, IH, Forall_cons. tauto.
Qed.

Lemma infer_type_Ok (vals : list pyval) (pt : ParameterType)
    (param_name field_name : string) :
  _to_parameter_type vals None param_name field_name = Ok pt ->
  exists v0 rest,
    vals = v0 :: rest
    /\ (pt, type_of v0) ∈ PARAMETER_PYTHON_TYPE_MAP
    /\ Forall (fun x => isinstance x (type_of v0) = true) vals.
Proof.
  unfold _to_parameter_type. destruct vals as [|v0 rest]; [done|].
  change (PyList.index (v0 :: rest) 0) with (Some v0). result_step.
  intros H. exists v0, rest. split; [done|].
  rewrite <- _get_parameter_type_Ok, <- forallb_Forall.
  destruct v0; cbn [not_none] in H; result_step_in H; try done;
    destruct (_get_parameter_type _) as [pt'|]; try done;
    result_step_in H;
    destruct (forallb _ _); try done; result_step_in H;
    by simplify_eq.
Qed.

(** X1. Without [value_type], the parameter type is inferred exactly when
    the value list is not empty, the class of its first value is [int],
    [float], [str] or [bool], and every value is an instance of that class;
    the result is the enum member of that class. *)
Theorem type_inference_iff (vals : list pyval) (pt : ParameterType)
    (param_name field_name : string) :
  _to_parameter_type vals None param_name field_name = Ok pt
  <-> exists v0 rest,
        vals = v0 :: rest
        /\ (pt, type_of v0) ∈ PARAMETER_PYTHON_TYPE_MAP
        /\ Forall (fun x => isinstance x (type_of v0) = true) vals.
Proof.
  split; [apply infer_type_Ok|].
  intros (v0 & rest & -> & Hpt & Hall). unfold _to_parameter_type.
  change (PyList.index (v0 :: rest) 0) with (Some v0). result_step.
  apply _get_parameter_type_Ok in Hpt. apply forallb_Forall in Hall.
  destruct v0; cbn [not_none]; result_step;
    try (by rewrite _get_parameter_type_cases in Hpt);
    by rewrite Hpt, Hall.
Qed.

Lemma type_inference_iff_witness :
  _to_parameter_type [VStr "adam"; VStr "sgd"] None "optimizer" "values"
  = Ok STRING.
Proof.
  apply (proj2 (type_inference_iff [VStr "adam"; VStr "sgd"] STRING
                  "optimizer" "values")).
  exists (VStr "adam"), [VStr "sgd"]. split; [reflexivity|]. split.
  - apply (bool_decide_unpack _). vm_compute. exact I.
  - repeat constructor.
Defined.

(** Inversion of an equation between a monadic computation and a result,
    one step at the head of the computation. *)
Ltac inv_result_step H :=
  match type of H with
  | Raise _ = Ok _ => discriminate H
  | Ok _ = Raise _ => discriminate H
  | mbind _ ?m = _ => destruct m eqn:?
  | or_raise ?o _ = _ => destruct o eqn:?
  | assert ?b _ = _ => destruct b eqn:?
  | (if ?b then _ else _) = _ => destruct b eqn:?
  | match ?x with _ => _ end = _ => destruct x eqn:?
  end; result_step_in H.

Ltac inv_results :=
  repeat match goal with
         | H : _ = Ok _ |- _ => progress (repeat inv_result_step H)
         | H : _ = Raise _ |- _ => progress (repeat inv_result_step H)
         | H : Ok _ = Ok _ |- _ => injection H as ?; subst
         | H : Raise _ = Raise _ |- _ => injection H as ?; subst
         | H : bool_decide _ = true |- _ => apply bool_decide_eq_true in H
         | H : bool_decide _ = false |- _ => apply bool_decide_eq_false in H
         end.

(** The enum member that a [value_type] string declares. *)
Definition declared_types : dict ParameterType :=
  [("int", INT); ("float", FLOAT); ("bool", BOOL); ("str", STRING)].

Definition parameter_type_of (p : parameter) : ParameterType :=
  match p with
  | RangeParameter _ pt _ _ _ _
  | ChoiceParameter _ pt _ _
  | FixedParameter _ pt _ => pt
  end.

(** The value a parameter type is inferred from. *)
Definition first_value (p : parameter) : option pyval :=
  match p with
  | RangeParameter _ _ lower _ _ _ => Some lower
  | ChoiceParameter _ _ vs _ => head vs
  | FixedParameter _ _ v => Some v
  end.

Lemma known_value_type (t : string) :
  contains PARAM_TYPES t = true ->
  t = "int" \/ t = "float" \/ t = "bool" \/ t = "str".
Proof.
  intros H%bool_decide_eq_true. unfold keys, PARAM_TYPES in H. cbn in H.
  rewrite !elem_of_cons, elem_of_nil in H. tauto.
Qed.

Lemma declared_type_lookup (t : string) :
  contains PARAM_TYPES t = true ->
  exists py pt,
    get_item PARAM_TYPES t = Some py /\ _get_parameter_type py = Ok pt
    /\ get_item declared_types t = Some pt.
Proof.
  intros [-> | [-> | [-> | ->]]]%known_value_type; eexists _, _;
    by repeat split.
Qed.


Lemma list_of_two {A} (l : list A) (a b : A) :
  length l = 2 -> PyList.index l 0 = Some a -> PyList.index l 1 = Some b ->
  l = [a; b].
Proof.
  destruct l as [|x [|y [|z l]]]; try done. intros _ Ha Hb.
  by injection Ha as ->; injection Hb as ->.
Qed.

Lemma existsb_list_false (l : list pyval) :
  existsb (fun val => isinstance val list_) l = false
  <-> Forall (fun x => type_of x ≠ list_) l.
Proof.
  induction l as [|x l IH]; simpl.
  - split; [by constructor|done].
  - rewrite orb_false_iff, IH, Forall_cons.
    rewrite (isinstance_exact x list_) by (by right).
    by rewrite bool_decide_eq_false.
Qed.

Lemma declared_to_parameter_type (vals : list pyval) (t : string)
    (pt : ParameterType) (param_name field_name : string) :
  contains PARAM_TYPES t = true ->
  _to_parameter_type vals (Some t) param_name field_name = Ok pt
  <-> get_item declared_types t = Some pt.
Proof.
  intros (py & pt' & Hpy & Hpt & Hd)%declared_type_lookup.
  unfold _to_parameter_type. rewrite Hpy, Hd. result_step. rewrite Hpt.
  split; congruence.
Qed.

Lemma declared_fixed_type (t : string) (py : pytype) (pt : ParameterType) :
  get_item PARAM_TYPES t = Some py ->
  _get_parameter_type py = Ok pt <-> get_item declared_types t = Some pt.
Proof.
  intros Hpy.
  destruct (declared_type_lookup t) as (py' & pt' & Hpy' & Hpt & Hd).
  { by eapply contains_get_item. }
  rewrite Hd. assert (py' = py) as -> by congruence. rewrite Hpt.
  split; congruence.
Qed.

(** X3. A representation that builds a parameter is read back from it:
    the name is the [name] field; a range parameter has [type] [range], its
    two bounds are the [bounds] field, and [log_scale] and [is_fidelity] are
    the fields of those names or [False]; a choice parameter has [type]
    [choice], its values are the [values] field, at least two, and
    [is_ordered] is the field or [False]; a fixed parameter has [type]
    [fixed], its value is the [value] field, an [int], [float], [bool] or
    [str], and no field of the representation is a list. The parameter type
    is the one [value_type] declares or, without it, the enum member of the
    class of the first value. *)
Theorem parameter_from_json_inversion (representation : dict pyval)
    (p : parameter) :
  parameter_from_json representation = Ok p ->
  get_item representation "name" = Some (VStr (parameter_name p))
  /\ match p with
     | RangeParameter _ _ lower upper log_scale is_fidelity =>
         get_item representation "type" = Some (VStr "range")
         /\ get_item representation "bounds" = Some (VList [lower; upper])
         /\ log_scale = get representation "log_scale" (VBool false)
         /\ is_fidelity = get representation "is_fidelity" (VBool false)
     | ChoiceParameter _ _ vs is_ordered =>
         get_item representation "type" = Some (VStr "choice")
         /\ get_item representation "values" = Some (VList vs)
         /\ 2 ≤ length vs
         /\ is_ordered = get representation "is_ordered" (VBool false)
     | FixedParameter _ _ v =>
         get_item representation "type" = Some (VStr "fixed")
         /\ get_item representation "value" = Some v
         /\ type_of v ∈ [int_; float_; bool_; str_]
         /\ Forall (fun x => type_of x ≠ list_) (values representation)
     end
  /\ match get representation "value_type" VNone with
     | VStr t => get_item declared_types t = Some (parameter_type_of p)
     | _ => exists v0,
              first_value p = Some v0
              /\ (parameter_type_of p, type_of v0)
                 ∈ PARAMETER_PYTHON_TYPE_MAP
     end.
Proof.
  unfold parameter_from_json, _make_range_param, _make_choice_param,
    _make_fixed_param.
  intros H. inv_results; cbn [parameter_name parameter_type_of first_value].
  all: try match goal with H : None = Some _ |- _ => discriminate H end.
  all: subst; repeat split; try reflexivity.
  all: try match goal with
           | H : _to_parameter_type _ None _ _ = Ok _ |- _ =>
               apply infer_type_Ok in H as (v0 & rest & -> & Hpt & _)
           | H : _to_parameter_type _ (Some _) _ _ = Ok _ |- _ =>
               apply declared_to_parameter_type in H; [|done]
           end.
  all: try done.
  all: try (by do 2 f_equal; apply list_of_two).
  all: try (by eexists; split; [reflexivity|]; simplify_eq/=).
  all: try (simpl in *; lia).
  all: try (by apply existsb_list_false, negb_true_iff).
  all: try (by eexists; split; [reflexivity|]; apply _get_parameter_type_Ok).
  all: try (by eapply declared_fixed_type).
  match goal with
  | H : PyList.index (?v :: ?l) 0 = Some ?a |- _ =>
      change (Some v = Some a) in H; injection H as <-
  end.
  by eexists.
Qed.

Definition epochs_representation : dict pyval :=
  [("name", VStr "epochs"); ("type", VStr "range");
   ("bounds", VList [VInt 1; VInt 10]); ("log_scale", VBool true)].

Lemma parameter_from_json_inversion_witness :
  get_item epochs_representation "name" = Some (VStr "epochs")
  /\ (get_item epochs_representation "type" = Some (VStr "range")
      /\ get_item epochs_representation "bounds"
         = Some (VList [VInt 1; VInt 10])
      /\ VBool true = get epochs_representation "log_scale" (VBool false)
      /\ VBool false = get epochs_representation "is_fidelity" (VBool false))
  /\ exists v0, Some (VInt 1) = Some v0
                /\ (INT, type_of v0) ∈ PARAMETER_PYTHON_TYPE_MAP.
Proof.
  exact (parameter_from_json_inversion epochs_representation
           (RangeParameter "epochs" INT (VInt 1) (VInt 10) (VBool true)
              (VBool false)) eq_refl).
Defined.



Lemma _get_parameter_type_Raise (t : pytype) (e : exn) :
  _get_parameter_type t = Raise e -> ValidationError e.
Proof.
  rewrite _get_parameter_type_cases.
  destruct t as [| | | | | | | |[]|[]]; intros H; by simplify_eq.
Qed.

Lemma _to_parameter_type_Raise (vals : list pyval) (typ : option string)
    (param_name field_name : string) (e : exn) :
  vals ≠ [] ->
  (forall t, typ = Some t -> contains PARAM_TYPES t = true) ->
  _to_parameter_type vals typ param_name field_name = Raise e ->
  ValidationError e.
Proof.
  intros Hne Htyp. unfold _to_parameter_type.
  destruct typ as [t|].
  - destruct (declared_type_lookup t (Htyp t eq_refl))
      as (py & pt & Hpy & Hpt & _).
    rewrite Hpy. result_step. by rewrite Hpt.
  - destruct vals as [|v0 rest]; [done|].
    change (PyList.index (v0 :: rest) 0) with (Some v0). result_step.
    intros H. inv_results; try done; try (by eapply _get_parameter_type_Raise).
    destruct v0; by simplify_eq/=.
Qed.

(** X4. A representation without [name] raises [KeyError] for [name], and
    one with a string name and without [type] raises [KeyError] for [type];
    these are the only exceptions of [parameter_from_json] that are not an
    [AssertionError] or a [ValueError]: it never raises [IndexError], nor a
    [KeyError] for another key. *)
Theorem parameter_from_json_exceptions (representation : dict pyval) :
  (get_item representation "name" = None ->
   parameter_from_json representation = Raise (KeyError "name"))
  /\ (forall name,
        get_item representation "name" = Some (VStr name) ->
        get_item representation "type" = None ->
        parameter_from_json representation = Raise (KeyError "type"))
  /\ (forall e,
        parameter_from_json representation = Raise e ->
        ValidationError e
        \/ (e = KeyError "name" /\ get_item representation "name" = None)
        \/ (e = KeyError "type" /\ get_item representation "type" = None)).
Proof.
  split; [|split].
  - intros H. unfold parameter_from_json. by rewrite H.
  - intros name Hn Ht. unfold parameter_from_json. by rewrite Hn, Ht.
  - intros e. unfold parameter_from_json, _make_range_param,
      _make_choice_param, _make_fixed_param.
    intros H. inv_results.
    all: try (by left).
    all: try (by right; left).
    all: try (by right; right).
    all: try match goal with
             | H1 : contains ?d ?k = true, H2 : get_item ?d ?k = None |- _ =>
                 apply get_item_None in H2; congruence
             | H : length ?l = 2, H2 : PyList.index ?l _ = None |- _ =>
                 by destruct l as [|? [|? [|? ?]]]
             | H : _get_parameter_type _ = Raise _ |- _ =>
                 left; by eapply _get_parameter_type_Raise
             | H : _to_parameter_type _ _ _ _ = Raise _ |- _ =>
                 left; eapply _to_parameter_type_Raise; [| |exact H];
                 [intros ->; simpl in *; lia|by intros ? [= <-]]
             end.
Qed.

Lemma parameter_from_json_exceptions_witness :
  parameter_from_json [("type", VStr "range"); ("bounds", VList [])]
  = Raise (KeyError "name").
Proof.
  exact (proj1 (parameter_from_json_exceptions
                  [("type", VStr "range"); ("bounds", VList [])]) eq_refl).
Defined.


(** ** Constraint parser *)

Lemma is_comparison_lookup (o : string) :
  is_comparison (Some o) = true <->
  exists op, get_item COMPARISON_OPS o = Some op.
Proof.
  rewrite is_comparison_iff. split.
  - intros [-> | ->]; by eexists.
  - intros [op Hop]. apply get_item_elem_of in Hop. unfold keys in Hop.
    cbn in Hop. rewrite !elem_of_cons, elem_of_nil in Hop. tauto.
Qed.

Lemma order_shape (tokens : list string) :
  order_const tokens = true <->
  exists a o b, tokens = [a; o; b] /\ is_comparison (Some o) = true.
Proof.
  unfold order_const. rewrite andb_true_iff, bool_decide_eq_true. split.
  - intros [Hl Ho]. destruct tokens as [|a [|o [|b [|? ?]]]]; try done.
    by exists a, o, b.
  - by intros (a & o & b & -> & Ho).
Qed.

Lemma long_tokens {A} (tokens : list A) :
  5 ≤ length tokens ->
  exists pre o b, tokens = pre ++ [o; b] /\ 3 ≤ length pre.
Proof.
  intros H. rewrite <- (take_drop (length tokens - 2) tokens).
  pose proof (length_drop tokens (length tokens - 2)) as Hd.
  pose proof (length_take tokens (length tokens - 2)) as Ht.
  destruct (drop (length tokens - 2) tokens) as [|o [|b [|? ?]]];
    simpl in Hd; try lia.
  exists (take (length tokens - 2) tokens), o, b. split; [done|lia].
Qed.

(** The middle of [constraint_from_str] on the tokens of an order. *)
Lemma order_from_tokens (a o b : string) (op : ComparisonOp)
    (parameters : dict parameter) :
  get_item COMPARISON_OPS o = Some op ->
  constraint_from_tokens [a; o; b] parameters
  = match get_item parameters a, get_item parameters b with
    | Some pa, Some pb =>
        Ok (if bool_decide (op = LEQ) then OrderConstraint pa pb
            else OrderConstraint pb pa)
    | None, _ => Raise (AssertionError (ParameterNotIn a (keys parameters)))
    | Some _, None =>
        Raise (AssertionError (ParameterNotIn b (keys parameters)))
    end.
Proof.
  intros Hop. unfold constraint_from_tokens.
  assert (order_const [a; o; b] = true) as ->.
  { apply order_shape. exists a, o, b. split; [done|].
    apply is_comparison_lookup. by eexists. }
  cbn [orb negb]. unfold comparison_at.
  change (PyList.index [a; o; b] 0) with (Some a).
  change (PyList.index [a; o; b] 1) with (Some o).
  change (PyList.index [a; o; b] 2) with (Some b).
  result_step. rewrite Hop.
  destruct (get_item parameters a) as [pa|] eqn:Ha.
  - rewrite (contains_get_item _ _ _ Ha : bool_decide _ = true).
    result_step.
    destruct (get_item parameters b) as [pb|] eqn:Hb.
    + rewrite (contains_get_item _ _ _ Hb : bool_decide _ = true).
      result_step. by case_bool_decide.
    + by rewrite (get_item_None _ _ Hb : bool_decide _ = false).
  - by rewrite (get_item_None _ _ Ha : bool_decide _ = false).
Qed.

(** The middle of [constraint_from_str] on the tokens of a sum or of a
    weighted sum. *)
Lemma long_from_tokens (pre : list string) (o b : string)
    (op : ComparisonOp) (parameters : dict parameter) :
  3 ≤ length pre ->
  length pre mod 2 = 1 ->
  get_item COMPARISON_OPS o = Some op ->
  constraint_from_tokens (pre ++ [o; b]) parameters
  = bound ← or_raise (PyFloat.of_str b) (ValueError (BoundMustBeNumber b));
    if bool_decide ("*" ∈ pre ++ [o; b]) then
      '(used_parameters, used_weights) ←
        parameter_loop (keys parameters) 0 pre [] [];
      Ok (ParameterConstraint
            (of_pairs (zip used_parameters used_weights)) bound)
    else
      used_parameters ← sum_loop (keys parameters) 0 pre [];
      ps ← comprehension
             (fun p => or_raise (get_item parameters p) (KeyError p))
             (filter (fun p => p ∈ used_parameters) (keys parameters));
      Ok (SumConstraint ps (bool_decide (op = LEQ)) bound).
Proof.
  intros Hlen Hodd Hop. unfold constraint_from_tokens.
  rewrite order_const_long by (rewrite length_app_2; lia).
  rewrite sum_const_app, parameter_const_app.
  rewrite (bool_decide_eq_true_2 (3 ≤ length pre)) by done.
  rewrite (bool_decide_eq_true_2 (length pre mod 2 = 1)) by done.
  rewrite (proj2 (is_comparison_lookup o)) by (by eexists).
  rewrite (proj1 (index_app_last2 pre o b)), drop_last2_app.
  rewrite (comparison_at_app _ _ _ _ Hop).
  case_bool_decide; result_step; by destruct (PyFloat.of_str b).
Qed.

(** What the sum loop rejects at index [idx]. *)
Definition sum_violation (parameter_names : list string) (idx : nat)
    (token : string) : Prop :=
  (idx mod 2 = 0 /\ token ∉ parameter_names)
  \/ (idx mod 2 = 1 /\ token ≠ "+").

Lemma lookup_cons_shift {A} (P : nat -> A -> Prop) (t : A) (l : list A)
    (idx : nat) :
  (forall i x, (t :: l) !! i = Some x -> P (idx + i) x)
  <-> P idx t /\ forall i x, l !! i = Some x -> P (S idx + i) x.
Proof.
  split.
  - intros H. split.
    + specialize (H 0 t eq_refl). by rewrite Nat.add_0_r in H.
    + intros i x Hi. replace (S idx + i) with (idx + S i) by lia.
      by apply H.
  - intros [H0 H] [|i] x Hi; simpl in Hi.
    + injection Hi as <-. by rewrite Nat.add_0_r.
    + replace (idx + S i) with (S idx + i) by lia. by apply H.
Qed.

Lemma mod_2_cases (n : nat) : n mod 2 = 0 \/ n mod 2 = 1.
Proof. pose proof (Nat.mod_upper_bound n 2). lia. Qed.

Lemma mod_4_cases (n : nat) :
  n mod 4 = 0 \/ n mod 4 = 1 \/ n mod 4 = 2 \/ n mod 4 = 3.
Proof. pose proof (Nat.mod_upper_bound n 4). lia. Qed.

(** The sum loop ends without an exception exactly when no token before
    the operator breaks the rule of its index. *)
Lemma sum_loop_Ok_iff names tokens : forall idx used,
  (exists used', sum_loop names idx tokens used = Ok used')
  <-> forall i token,
        tokens !! i = Some token -> ~ sum_violation names (idx + i) token.
Proof.
  induction tokens as [|t tokens IH]; intros idx used.
  - split; [done|]. intros _. by eexists.
  - pose proof (lookup_cons_shift
        (fun i tok => ~ sum_violation names i tok) t tokens idx) as Hshift.
    cbv beta in Hshift. rewrite Hshift. clear Hshift.
    cbn [sum_loop]. unfold sum_violation at 1.
    destruct (mod_2_cases idx) as [Hm|Hm].
    + rewrite (bool_decide_eq_true_2 _ Hm).
      destruct (decide (t ∈ names)) as [Ht|Ht].
      * rewrite (bool_decide_eq_true_2 _ Ht). result_step. rewrite IH.
        split; [intros H; split; [|done]|by intros [_ H]].
        intros [[_ ?]|[? _]]; [done|lia].
      * rewrite (bool_decide_eq_false_2 _ Ht). result_step.
        split; [by intros [? ?]|]. intros [[] _]. by left.
    + rewrite (bool_decide_eq_false_2 (idx mod 2 = 0)) by lia.
      destruct (decide (t = "+")) as [Ht|Ht].
      * rewrite (bool_decide_eq_true_2 _ Ht). result_step. rewrite IH.
        split; [intros H; split; [|done]|by intros [_ H]].
        intros [[? _]|[_ ?]]; [lia|done].
      * rewrite (bool_decide_eq_false_2 _ Ht). result_step.
        split; [by intros [? ?]|]. intros [[] _]. by right.
Qed.

Lemma sum_loop_Raise names tokens : forall idx used e,
  sum_loop names idx tokens used = Raise e -> exists m, e = AssertionError m.
Proof.
  induction tokens as [|t tokens IH]; intros idx used e; [done|].
  cbn [sum_loop]. repeat case_bool_decide; result_step; eauto.
  all: intros [= <-]; by eexists.
Qed.

(** The weighted loop ends without an exception exactly when no token
    before the operator breaks the rule of its index. *)
Lemma parameter_loop_Ok_iff names tokens : forall idx up uw,
  (exists r, parameter_loop names idx tokens up uw = Ok r)
  <-> forall i token,
        tokens !! i = Some token -> ~ grammar_violation names (idx + i) token.
Proof.
  induction tokens as [|t tokens IH]; intros idx up uw.
  - split; [done|]. intros _. by eexists.
  - pose proof (lookup_cons_shift
        (fun i tok => ~ grammar_violation names i tok) t tokens idx)
      as Hshift.
    cbv beta in Hshift. rewrite Hshift. clear Hshift.
    cbn [parameter_loop]. unfold grammar_violation at 1.
    destruct (mod_4_cases idx) as [Hm|[Hm|[Hm|Hm]]].
    + rewrite (bool_decide_eq_true_2 _ Hm).
      destruct (PyFloat.of_str t) as [x|] eqn:Hx; result_step.
      * rewrite IH. split; [intros H; split; [|done]|by intros [_ H]].
        intros [[_ ?]|[[? _]|[[? _]|[? _]]]]; [done|lia..].
      * split; [by intros [? ?]|]. intros [[] _]. by left.
    + rewrite (bool_decide_eq_false_2 (idx mod 4 = 0)) by lia.
      rewrite (bool_decide_eq_true_2 _ Hm).
      destruct (decide (t = "*")) as [Ht|Ht].
      * rewrite (bool_decide_eq_true_2 _ Ht). result_step. rewrite IH.
        split; [intros H; split; [|done]|by intros [_ H]].
        intros [[? _]|[[_ ?]|[[? _]|[? _]]]]; [lia|done|lia..].
      * rewrite (bool_decide_eq_false_2 _ Ht). result_step.
        split; [by intros [? ?]|]. intros [[] _]. right. by left.
    + rewrite (bool_decide_eq_false_2 (idx mod 4 = 0)) by lia.
      rewrite (bool_decide_eq_false_2 (idx mod 4 = 1)) by lia.
      rewrite (bool_decide_eq_true_2 _ Hm).
      destruct (decide (t ∈ names)) as [Ht|Ht].
      * rewrite (bool_decide_eq_true_2 _ Ht). result_step. rewrite IH.
        split; [intros H; split; [|done]|by intros [_ H]].
        intros [[? _]|[[? _]|[[_ ?]|[? _]]]]; [lia..|done|lia].
      * rewrite (bool_decide_eq_false_2 _ Ht). result_step.
        split; [by intros [? ?]|]. intros [[] _]. right. right. by left.
    + rewrite (bool_decide_eq_false_2 (idx mod 4 = 0)) by lia.
      rewrite (bool_decide_eq_false_2 (idx mod 4 = 1)) by lia.
      rewrite (bool_decide_eq_false_2 (idx mod 4 = 2)) by lia.
      destruct (decide (t = "+")) as [Ht|Ht].
      * rewrite (bool_decide_eq_true_2 _ Ht). result_step. rewrite IH.
        split; [intros H; split; [|done]|by intros [_ H]].
        intros [[? _]|[[? _]|[[? _]|[_ ?]]]]; [lia..|done].
      * rewrite (bool_decide_eq_false_2 _ Ht). result_step.
        split; [by intros [? ?]|]. intros [[] _]. right. right. by right.
Qed.

Lemma parameter_loop_Raise names tokens : forall idx up uw e,
  parameter_loop names idx tokens up uw = Raise e ->
  (exists m, e = AssertionError m)
  \/ (exists t, e = ValueError (WeightMustBeNumber t)).
Proof.
  induction tokens as [|t tokens IH]; intros idx up uw e; [done|].
  cbn [parameter_loop]. repeat case_bool_decide; result_step; eauto.
  - destruct (PyFloat.of_str t); result_step; eauto.
    intros [= <-]. right. by eexists.
  - intros [= <-]. left. by eexists.
  - intros [= <-]. left. by eexists.
  - intros [= <-]. left. by eexists.
Qed.

(** The names the weighted loop collects are known parameter names. *)
Lemma parameter_loop_names names tokens : forall idx up uw up' uw',
  parameter_loop names idx tokens up uw = Ok (up', uw') ->
  forall p, p ∈ up' -> p ∈ up \/ p ∈ names.
Proof.
  induction tokens as [|t tokens IH]; intros idx up uw up' uw'.
  - intros [= <- <-] p Hp. by left.
  - cbn [parameter_loop]. repeat case_bool_decide; result_step;
      try done; try (by apply IH).
    + destruct (PyFloat.of_str t); result_step; [by apply IH|done].
    + intros Hl p Hp.
      destruct (IH _ _ _ _ _ Hl p Hp) as [Hin|?]; [|by right].
      apply elem_of_app in Hin as [?|Hin]; [by left|].
      apply list_elem_of_singleton in Hin as ->. by right.
Qed.

Lemma long_shape (tokens : list string) :
  sum_const tokens = true \/ parameter_const tokens = true ->
  exists pre o b op,
    tokens = pre ++ [o; b] /\ 3 ≤ length pre /\ length pre mod 2 = 1
    /\ get_item COMPARISON_OPS o = Some op.
Proof.
  intros H.
  assert (5 ≤ length tokens) as Hlen.
  { destruct H as [H|H]; unfold sum_const, parameter_const in H;
      rewrite !andb_true_iff, !bool_decide_eq_true in H; tauto. }
  destruct (long_tokens tokens Hlen) as (pre & o & b & -> & Hpre).
  rewrite sum_const_app, parameter_const_app in H.
  rewrite !andb_true_iff, !bool_decide_eq_true in H.
  assert (length pre mod 2 = 1 /\ is_comparison (Some o) = true)
    as [Hodd [op Hop]%is_comparison_lookup] by tauto.
  by exists pre, o, b, op.
Qed.

Lemma get_item_values {V} (d : dict V) k v :
  get_item d k = Some v -> v ∈ values d.
Proof.
  unfold values. induction d as [|[k' v'] d IH]; [done|].
  rewrite fmap_cons. cbn [snd get_item]. case_bool_decide.
  - intros [= ->]. apply elem_of_cons. by left.
  - intros H'. apply elem_of_cons. right. by apply IH.
Qed.

(** Looking up keys of the dictionary never fails, and finds values of the
    dictionary. *)
Lemma comprehension_lookup_total {V} (d : dict V) (l : list string) :
  (forall k, k ∈ l -> k ∈ keys d) ->
  exists vs,
    comprehension (fun p => or_raise (get_item d p) (KeyError p)) l = Ok vs
    /\ forall v, v ∈ vs -> v ∈ values d.
Proof.
  induction l as [|k l IH]; intros Hl.
  - exists []. split; [done|]. by intros v ?%elem_of_nil.
  - destruct (get_item_is_Some d k) as [v Hv].
    { apply Hl, elem_of_cons. by left. }
    destruct IH as (vs & Hvs & Hin).
    { intros k' Hk'. apply Hl, elem_of_cons. by right. }
    exists (v :: vs). cbn [comprehension]. rewrite Hv. result_step.
    rewrite Hvs. result_step. split; [done|].
    intros v' [->|?]%elem_of_cons; [by eapply get_item_values|by apply Hin].
Qed.

Lemma keys_set_item {V} (d : dict V) k v k' :
  k' ∈ keys (set_item d k v) -> k' = k \/ k' ∈ keys d.
Proof.
  unfold keys. induction d as [|[k0 v0] d IH]; cbn [set_item].
  - intros ->%list_elem_of_singleton. by left.
  - case_bool_decide; rewrite !fmap_cons; cbn [fst];
      rewrite !elem_of_cons; [tauto|].
    intros [->|H']; [tauto|]. destruct (IH H'); tauto.
Qed.

Lemma keys_of_pairs {V} (l : list (string * V)) k :
  k ∈ keys (of_pairs l) -> k ∈ l.*1.
Proof.
  unfold of_pairs.
  assert (forall acc : dict V,
    k ∈ keys (fold_left (fun d kv => set_item d kv.1 kv.2) l acc) ->
    k ∈ keys acc \/ k ∈ l.*1) as H.
  { induction l as [|[k0 v0] l IH]; intros acc; cbn [fold_left].
    - by left.
    - intros [Hk|Hk]%IH.
      + rewrite fmap_cons, elem_of_cons. cbn [fst snd] in *.
        destruct (keys_set_item _ _ _ _ Hk); tauto.
      + right. rewrite fmap_cons, elem_of_cons. tauto. }
  intros [?%elem_of_nil|?]%H; done.
Qed.

(** X5. For every string and every parameter dictionary,
    [constraint_from_str] returns a constraint or raises an
    [AssertionError] or a [ValueError]: its indexing and its dictionary
    lookups never raise [IndexError] or [KeyError]. *)
Theorem constraint_from_str_only_validation_errors
    (representation : string) (parameters : dict parameter) :
  ok_or_ValidationError (constraint_from_str representation parameters).
Proof.
  unfold constraint_from_str.
  generalize (PyStr.split representation). intros tokens.
  destruct (order_const tokens) eqn:Ho.
  - apply order_shape in Ho as (a & o & b & -> & [op Hop]%is_comparison_lookup).
    rewrite (order_from_tokens _ _ _ _ _ Hop).
    by destruct (get_item parameters a), (get_item parameters b).
  - destruct (sum_const tokens || parameter_const tokens) eqn:Hl.
    + apply orb_true_iff in Hl.
      destruct (long_shape tokens Hl)
        as (pre & o & b & op & -> & Hpre & Hodd & Hop).
      rewrite (long_from_tokens _ _ _ _ _ Hpre Hodd Hop).
      destruct (PyFloat.of_str b); [|done]. result_step.
      case_bool_decide.
      * destruct (parameter_loop _ _ _ _ _) as [[up uw]|e] eqn:Hloop;
          [done|].
        by destruct (parameter_loop_Raise _ _ _ _ _ _ Hloop) as [[m ->]|[t ->]].
      * destruct (sum_loop _ _ _ _) as [used|e] eqn:Hloop.
        -- result_step.
           destruct (comprehension_lookup_total parameters
                       (filter (fun p => p ∈ used) (keys parameters)))
             as (vs & -> & _); [|done].
           by intros k [_ ?]%list_elem_of_filter.
        -- by destruct (sum_loop_Raise _ _ _ _ _ Hloop) as [m ->].
    + apply orb_false_iff in Hl as [Hs Hp].
      unfold constraint_from_tokens. by rewrite Ho, Hs, Hp.
Qed.

Lemma constraint_from_tokens_known
    (tokens : list string) (parameters : dict parameter)
    (c : parameter_constraint) :
  constraint_from_tokens tokens parameters = Ok c ->
  match c with
  | OrderConstraint lower upper =>
      lower ∈ values parameters /\ upper ∈ values parameters
  | SumConstraint ps _ _ => forall p, p ∈ ps -> p ∈ values parameters
  | ParameterConstraint d _ => forall k, k ∈ keys d -> k ∈ keys parameters
  end.
Proof.
  destruct (order_const tokens) eqn:Ho.
  - apply order_shape in Ho as (a & o & b & -> & [op Hop]%is_comparison_lookup).
    rewrite (order_from_tokens _ _ _ _ _ Hop).
    destruct (get_item parameters a) as [pa|] eqn:Ha; [|done].
    destruct (get_item parameters b) as [pb|] eqn:Hb; [|done].
    apply get_item_values in Ha, Hb.
    by case_bool_decide; intros [= <-].
  - destruct (sum_const tokens || parameter_const tokens) eqn:Hl.
    + apply orb_true_iff in Hl.
      destruct (long_shape tokens Hl)
        as (pre & o & b & op & -> & Hpre & Hodd & Hop).
      rewrite (long_from_tokens _ _ _ _ _ Hpre Hodd Hop).
      destruct (PyFloat.of_str b); [|done]. result_step.
      case_bool_decide.
      * destruct (parameter_loop _ _ _ _ _) as [[up uw]|e] eqn:Hloop;
          [|done].
        result_step. intros [= <-] k Hk%keys_of_pairs.
        apply list_elem_of_fmap in Hk as ([k' x] & -> & Hk%elem_of_zip_l).
        destruct (parameter_loop_names _ _ _ _ _ _ _ Hloop _ Hk)
          as [?%elem_of_nil|?]; done.
      * destruct (sum_loop _ _ _ _) as [used|e] eqn:Hloop; [|done].
        result_step.
        destruct (comprehension_lookup_total parameters
                    (filter (fun p => p ∈ used) (keys parameters)))
          as (vs & -> & Hvs).
        { by intros k [_ ?]%list_elem_of_filter. }
        result_step. by intros [= <-].
    + apply orb_false_iff in Hl as [Hs Hp].
      unfold constraint_from_tokens. by rewrite Ho, Hs, Hp.
Qed.


(** X6. Every parameter a returned constraint refers to is in
    [known_parameters]: the two parameters of an order constraint and the
    parameters of a sum constraint are values of the dictionary, and the
    names in the dictionary of a weighted constraint are keys of it. *)
Theorem constraint_refers_to_known_parameters
    (representation : string) (parameters : dict parameter)
    (c : parameter_constraint) :
  constraint_from_str representation parameters = Ok c ->
  match c with
  | OrderConstraint lower upper =>
      lower ∈ values parameters /\ upper ∈ values parameters
  | SumConstraint ps _ _ => forall p, p ∈ ps -> p ∈ values parameters
  | ParameterConstraint d _ => forall k, k ∈ keys d -> k ∈ keys parameters
  end.
Proof. apply constraint_from_tokens_known. Qed.

Lemma constraint_refers_to_known_parameters_witness :
  x1 ∈ values x1_x2 /\ x2 ∈ values x1_x2.
Proof.
  refine (constraint_refers_to_known_parameters
            "x1 <= x2" x1_x2 (OrderConstraint x1 x2) _).
  vm_compute. reflexivity.
Defined.

Lemma guard_iff (tokens : list string) :
  (order_const tokens || sum_const tokens || parameter_const tokens) = true
  <-> length tokens mod 2 = 1
      /\ is_comparison (PyList.index tokens (-2)) = true.
Proof.
  split.
  - intros [[Ho|Hs]%orb_true_iff|Hp]%orb_true_iff.
    + by apply order_shape in Ho as (a & o & b & -> & Hc).
    + unfold sum_const in Hs.
      rewrite !andb_true_iff, !bool_decide_eq_true in Hs. tauto.
    + unfold parameter_const in Hp.
      rewrite !andb_true_iff, !bool_decide_eq_true in Hp. tauto.
  - intros [Hodd Hc].
    destruct tokens as [|a [|o [|b [|c [|d rest]]]]]; try done.
    + apply orb_true_iff. left. apply orb_true_iff. left.
      apply order_shape. by exists a, o, b.
    + rewrite orb_true_iff, orb_true_iff. unfold sum_const, parameter_const.
      rewrite Hc. rewrite (bool_decide_eq_true_2 (5 ≤ _)) by (simpl; lia).
      rewrite (bool_decide_eq_true_2 (_ mod 2 = 1)) by done.
      case_bool_decide; [by right|by left; right].
Qed.

(** X7. [constraint_from_str] rejects a string with the [ValueError] that
    lists the accepted forms exactly when its number of tokens is even or
    its second-to-last token is not [<=] or [>=] (in particular for fewer
    than two tokens); the parameter dictionary plays no part. *)
Theorem constraint_form_rejected_iff
    (representation : string) (parameters : dict parameter) :
  constraint_from_str representation parameters
  = Raise (ValueError ConstraintForm)
  <-> length (PyStr.split representation) mod 2 = 0
      \/ is_comparison (PyList.index (PyStr.split representation) (-2))
         = false.
Proof.
  unfold constraint_from_str.
  generalize (PyStr.split representation). intros tokens.
  pose proof (guard_iff tokens) as Hg.
  destruct (order_const tokens || sum_const tokens || parameter_const tokens)
    eqn:Hguard.
  - destruct (proj1 Hg eq_refl) as [Hodd Hc]. split; [|intros [?|?]; congruence].
    intros Hr. exfalso.
    destruct (order_const tokens) eqn:Ho.
    + apply order_shape in Ho
        as (a & o & b & -> & [op Hop]%is_comparison_lookup).
      rewrite (order_from_tokens _ _ _ _ _ Hop) in Hr.
      by destruct (get_item parameters a), (get_item parameters b).
    + destruct (long_shape tokens)
        as (pre & o & b & op & -> & Hpre & Hodd' & Hop);
        [by apply orb_true_iff|].
      rewrite (long_from_tokens _ _ _ _ _ Hpre Hodd' Hop) in Hr.
      destruct (PyFloat.of_str b); [|done]. result_step_in Hr.
      case_bool_decide.
      * destruct (parameter_loop _ _ _ _ _) as [[up uw]|e] eqn:Hloop;
          [done|]. result_step_in Hr.
        destruct (parameter_loop_Raise _ _ _ _ _ _ Hloop)
          as [[m ->]|[t ->]]; done.
      * destruct (sum_loop _ _ _ _) as [used|e] eqn:Hloop.
        -- result_step_in Hr.
           destruct (comprehension_lookup_total parameters
                       (filter (fun p => p ∈ used) (keys parameters)))
             as (vs & Hvs & _).
           { by intros k [_ ?]%list_elem_of_filter. }
           by rewrite Hvs in Hr.
        -- destruct (sum_loop_Raise _ _ _ _ _ Hloop) as [m ->]. done.
  - split; [intros _|intros _; unfold constraint_from_tokens; by rewrite Hguard].
    destruct (mod_2_cases (length tokens)) as [?|Hodd]; [by left|]. right.
    apply not_true_is_false. intros Hc.
    by pose proof (proj2 Hg (conj Hodd Hc)).
Qed.

Lemma constraint_form_rejected_iff_witness :
  constraint_from_str "x1 + x2 < 5" x1_x2 = Raise (ValueError ConstraintForm).
Proof.
  apply (proj2 (constraint_form_rejected_iff "x1 + x2 < 5" x1_x2)).
  right. reflexivity.
Defined.

(** X8. In an order constraint the left name is checked before the right
    one: an unknown left name raises the [AssertionError] that names it,
    and with a known left name an unknown right name raises the one that
    names the right. *)
Theorem order_constraint_unknown_name
    (representation a o b : string) (parameters : dict parameter) :
  PyStr.split representation = [a; o; b] ->
  o = "<=" \/ o = ">=" ->
  (a ∉ keys parameters ->
   constraint_from_str representation parameters
   = Raise (AssertionError (ParameterNotIn a (keys parameters))))
  /\ (a ∈ keys parameters -> b ∉ keys parameters ->
      constraint_from_str representation parameters
      = Raise (AssertionError (ParameterNotIn b (keys parameters)))).
Proof.
  intros Hs [op Hop]%is_comparison_iff%is_comparison_lookup.
  unfold constraint_from_str. rewrite Hs, (order_from_tokens _ _ _ _ _ Hop).
  split.
  - intros Ha. destruct (get_item parameters a) eqn:Hga; [|done].
    by apply get_item_elem_of in Hga.
  - intros [pa ->]%get_item_is_Some Hb.
    destruct (get_item parameters b) eqn:Hgb; [|done].
    by apply get_item_elem_of in Hgb.
Qed.

Lemma order_constraint_unknown_name_witness :
  constraint_from_str "x3 <= x4" x1_x2
  = Raise (AssertionError (ParameterNotIn "x3" ["x1"; "x2"]))
  /\ constraint_from_str "x1 <= x4" x1_x2
     = Raise (AssertionError (ParameterNotIn "x4" ["x1"; "x2"])).
Proof.
  split.
  - refine (proj1 (order_constraint_unknown_name "x3 <= x4" "x3" "<=" "x4"
                     x1_x2 eq_refl (or_introl eq_refl)) _).
    apply (bool_decide_unpack _). vm_compute. exact I.
  - refine (proj2 (order_constraint_unknown_name "x1 <= x4" "x1" "<=" "x4"
                     x1_x2 eq_refl (or_introl eq_refl)) _ _).
    + apply (bool_decide_unpack _). vm_compute. exact I.
    + apply (bool_decide_unpack _). vm_compute. exact I.
Defined.

(** X9. In a sum or weighted-sum string the bound is read first: when the
    last token is not a float literal the call raises the [ValueError] for
    the bound, whatever the tokens before the operator are. *)
Theorem bound_is_checked_first
    (representation : string) (pre : list string) (o b : string)
    (parameters : dict parameter) :
  PyStr.split representation = pre ++ [o; b] ->
  3 ≤ length pre ->
  length pre mod 2 = 1 ->
  o = "<=" \/ o = ">=" ->
  PyFloat.of_str b = None ->
  constraint_from_str representation parameters
  = Raise (ValueError (BoundMustBeNumber b)).
Proof.
  intros Hs Hlen Hodd [op Hop]%is_comparison_iff%is_comparison_lookup Hb.
  unfold constraint_from_str.
  by rewrite Hs, (long_from_tokens _ _ _ _ _ Hlen Hodd Hop), Hb.
Qed.

Lemma bound_is_checked_first_witness :
  constraint_from_str "oops - y >= many" x1_x2
  = Raise (ValueError (BoundMustBeNumber "many")).
Proof.
  refine (bound_is_checked_first "oops - y >= many" ["oops"; "-"; "y"]
            ">=" "many" x1_x2 eq_refl _ eq_refl (or_intror eq_refl) _).
  - simpl. lia.
  - vm_compute. reflexivity.
Defined.

(** X10. A string of the sum shape with a float bound parses exactly when
    every token before the operator at an even index is a known parameter
    name and every token at an odd index is [+]; otherwise it raises an
    [AssertionError]. *)
Theorem sum_constraint_parses_iff
    (representation : string) (pre : list string) (o b : string)
    (bound : PyFloat.float) (parameters : dict parameter) :
  PyStr.split representation = pre ++ [o; b] ->
  3 ≤ length pre ->
  length pre mod 2 = 1 ->
  o = "<=" \/ o = ">=" ->
  "*" ∉ pre ->
  PyFloat.of_str b = Some bound ->
  ((exists c, constraint_from_str representation parameters = Ok c)
   <-> forall i token,
         pre !! i = Some token ->
         ~ sum_violation (keys parameters) i token)
  /\ (forall e,
        constraint_from_str representation parameters = Raise e ->
        exists m, e = AssertionError m).
Proof.
  intros Hs Hlen Hodd Hcmp Hstar Hb.
  pose proof Hcmp as [op Hop]%is_comparison_iff%is_comparison_lookup.
  unfold constraint_from_str.
  rewrite Hs, (long_from_tokens _ _ _ _ _ Hlen Hodd Hop), Hb. result_step.
  rewrite bool_decide_eq_false_2.
  2:{ rewrite elem_of_app, !elem_of_cons, elem_of_nil.
      intros [?|[<-|[<-|[]]]]; [done| |by rewrite of_str_star in Hb].
      by destruct Hcmp. }
  rewrite <- (sum_loop_Ok_iff (keys parameters) pre 0 []).
  destruct (sum_loop _ _ _ _) as [used|e] eqn:Hloop.
  - result_step.
    destruct (comprehension_lookup_total parameters
                (filter (fun p => p ∈ used) (keys parameters)))
      as (vs & -> & _).
    { by intros k [_ ?]%list_elem_of_filter. }
    result_step. split; [|done]. split; intros _; by eexists.
  - result_step. split.
    + split; by intros [? ?].
    + intros e' [= <-]. by eapply sum_loop_Raise.
Qed.

Lemma sum_constraint_parses_iff_witness :
  (exists c, constraint_from_str "x1 + x2 + x1 <= 1" x1_x2 = Ok c)
  /\ (forall i token,
        ["x1"; "+"; "x2"; "+"; "x1"] !! i = Some token ->
        ~ sum_violation (keys x1_x2) i token).
Proof.
  split; [eexists; vm_compute; reflexivity|].
  refine (proj1 (proj1 (sum_constraint_parses_iff "x1 + x2 + x1 <= 1"
    ["x1"; "+"; "x2"; "+"; "x1"] "<=" "1"
    (S754_finite false 4503599627370496 (-52)) x1_x2
    eq_refl _ eq_refl (or_introl eq_refl) _ _)) _).
  - simpl. lia.
  - apply (bool_decide_unpack _). vm_compute. exact I.
  - vm_compute. reflexivity.
  - eexists. vm_compute. reflexivity.
Defined.

(** X11. A string of the weighted shape with a float bound parses exactly
    when no token before the operator breaks the rule of its index (a
    float literal at 0 mod 4, [*] at 1 mod 4, a known name at 2 mod 4, [+]
    at 3 mod 4); the groups need not be complete. Otherwise it raises an
    [AssertionError], or the [ValueError] for a weight. *)
Theorem weighted_constraint_parses_iff
    (representation : string) (pre : list string) (o b : string)
    (bound : PyFloat.float) (parameters : dict parameter) :
  PyStr.split representation = pre ++ [o; b] ->
  3 ≤ length pre ->
  length pre mod 2 = 1 ->
  o = "<=" \/ o = ">=" ->
  "*" ∈ pre ->
  PyFloat.of_str b = Some bound ->
  ((exists c, constraint_from_str representation parameters = Ok c)
   <-> forall i token,
         pre !! i = Some token ->
         ~ grammar_violation (keys parameters) i token)
  /\ (forall e,
        constraint_from_str representation parameters = Raise e ->
        (exists m, e = AssertionError m)
        \/ (exists t, e = ValueError (WeightMustBeNumber t))).
Proof.
  intros Hs Hlen Hodd Hcmp Hstar Hb.
  pose proof Hcmp as [op Hop]%is_comparison_iff%is_comparison_lookup.
  unfold constraint_from_str.
  rewrite Hs, (long_from_tokens _ _ _ _ _ Hlen Hodd Hop), Hb. result_step.
  rewrite bool_decide_eq_true_2 by (apply elem_of_app; by left).
  rewrite <- (parameter_loop_Ok_iff (keys parameters) pre 0 [] []).
  destruct (parameter_loop _ _ _ _ _) as [[up uw]|e] eqn:Hloop.
  - result_step. split; [|done]. split; intros _; by eexists.
  - result_step. split.
    + split; by intros [? ?].
    + intros e' [= <-]. by eapply parameter_loop_Raise.
Qed.

Lemma weighted_constraint_parses_iff_witness :
  (exists c, constraint_from_str "0.5 * x1 + 2 * x2 + 7 <= 3" x1_x2 = Ok c)
  /\ (forall i token,
        ["0.5"; "*"; "x1"; "+"; "2"; "*"; "x2"; "+"; "7"] !! i = Some token ->
        ~ grammar_violation (keys x1_x2) i token).
Proof.
  split; [eexists; vm_compute; reflexivity|].
  refine (proj1 (proj1 (weighted_constraint_parses_iff
    "0.5 * x1 + 2 * x2 + 7 <= 3"
    ["0.5"; "*"; "x1"; "+"; "2"; "*"; "x2"; "+"; "7"] "<=" "3" three x1_x2
    eq_refl _ eq_refl (or_introl eq_refl) _ _)) _).
  - simpl. lia.
  - apply (bool_decide_unpack _). vm_compute. exact I.
  - vm_compute. reflexivity.
  - eexists. vm_compute. reflexivity.
Defined.

(** ** Outcome constraint parser *)

Lemma outcome_constraint_form (tokens : list string) :
  bool_decide (length tokens = 3) && is_comparison (PyList.index tokens 1)
  = true
  <-> exists m o b, tokens = [m; o; b] /\ (o = "<=" \/ o = ">=").
Proof.
  rewrite andb_true_iff, bool_decide_eq_true. split.
  - intros [Hl Ho]. destruct tokens as [|m [|o [|b [|? ?]]]]; try done.
    exists m, o, b. split; [done|]. by apply is_comparison_iff.
  - intros (m & o & b & -> & Ho). split; [done|]. by apply is_comparison_iff.
Qed.

(** X12. [outcome_constraint_from_str] raises its [AssertionError] exactly
    when the string does not have three tokens with [<=] or [>=] in the
    middle, and its only other exception is the [ValueError] for the
    bound: indexing the bound token never raises [IndexError]. *)
Theorem outcome_constraint_from_str_exceptions (representation : string) :
  (outcome_constraint_from_str representation
   = Raise (AssertionError OutcomeConstraintForm)
   <-> ~ exists m o b,
         PyStr.split representation = [m; o; b] /\ (o = "<=" \/ o = ">="))
  /\ (forall e,
        outcome_constraint_from_str representation = Raise e ->
        e = AssertionError OutcomeConstraintForm
        \/ e = ValueError OutcomeBoundMustBeFloat).
Proof.
  destruct (bool_decide (length (PyStr.split representation) = 3)
            && is_comparison (PyList.index (PyStr.split representation) 1))
    eqn:Hform.
  - pose proof (proj1 (outcome_constraint_form _) Hform)
      as (m & o & b & Hs & Ho).
    pose proof Ho as [op Hop]%is_comparison_iff%is_comparison_lookup.
    rewrite (outcome_constraint_from_tokens _ _ _ _ _ Hs Hop).
    split.
    + split; [by destruct (PyFloat.of_str _)|]. intros []. by exists m, o, b.
    + intros e. destruct (PyFloat.of_str _); [done|].
      intros [= <-]. by right.
  - assert (outcome_constraint_from_str representation
            = Raise (AssertionError OutcomeConstraintForm)) as ->
      by (unfold outcome_constraint_from_str; by rewrite Hform).
    split.
    + split; [|done]. intros _ H%outcome_constraint_form. congruence.
    + intros e [= <-]. by left.
Qed.

Lemma outcome_constraint_from_str_exceptions_witness :
  outcome_constraint_from_str "auc is >= 80%"
  = Raise (AssertionError OutcomeConstraintForm).
Proof.
  apply (proj2 (proj1 (outcome_constraint_from_str_exceptions
                         "auc is >= 80%"))).
  intros (m & o & b & Hs & _). vm_compute in Hs. discriminate Hs.
Defined.

(** ** Experiment assembler *)

Lemma values_set_item {V} (d : dict V) k v v' :
  v' ∈ values (set_item d k v) -> v' = v \/ v' ∈ values d.
Proof.
  unfold values. induction d as [|[k0 v0] d IH]; cbn [set_item].
  - intros ->%list_elem_of_singleton. by left.
  - case_bool_decide; rewrite !fmap_cons; cbn [snd];
      rewrite !elem_of_cons; [tauto|].
    intros [->|H']; [tauto|]. destruct (IH H'); tauto.
Qed.

Lemma values_of_pairs {V} (l : list (string * V)) v :
  v ∈ values (of_pairs l) -> v ∈ l.*2.
Proof.
  unfold of_pairs.
  assert (forall acc : dict V,
    v ∈ values (fold_left (fun d kv => set_item d kv.1 kv.2) l acc) ->
    v ∈ values acc \/ v ∈ l.*2) as H.
  { induction l as [|[k0 v0] l IH]; intros acc; cbn [fold_left].
    - by left.
    - intros [Hv|Hv]%IH.
      + rewrite fmap_cons, elem_of_cons. cbn [fst snd] in *.
        destruct (values_set_item _ _ _ _ Hv); tauto.
      + right. rewrite fmap_cons, elem_of_cons. tauto. }
  intros [?%elem_of_nil|?]%H; done.
Qed.

(** The name-to-parameter lookup of [make_experiment]. *)
Definition parameter_map (exp_parameters : list parameter)
  : dict parameter :=
  of_pairs ((fun p => (parameter_name p, p)) <$> exp_parameters).

Lemma parameter_map_values (ps : list parameter) (p : parameter) :
  p ∈ values (parameter_map ps) -> p ∈ ps.
Proof.
  intros H%values_of_pairs. rewrite <- list_fmap_compose in H.
  by rewrite list_fmap_id in H.
Qed.

Lemma parameter_map_keys (ps : list parameter) (k : string) :
  k ∈ keys (parameter_map ps) -> exists p, p ∈ ps /\ parameter_name p = k.
Proof.
  intros H%keys_of_pairs. rewrite <- list_fmap_compose in H.
  apply list_elem_of_fmap in H as (p & -> & Hp). by exists p.
Qed.

Section make_experiment_properties.

Variable DEFAULT_OBJECTIVE_NAME : string.

(** X13. An experiment that [make_experiment] returns is read back from
    the arguments: its parameters are the built representations, in order;
    its outcome constraints are the parsed strings, in order, none of them
    relative unless a status quo was given; its objective metric is named
    [objective_name], or the default name when that is [None] or empty; its
    parameter constraints are [None] when none were given and otherwise the
    strings parsed against the name-to-parameter lookup; name, status quo
    and experiment type are passed through. *)
Theorem make_experiment_inversion
    (parameters : list (dict pyval)) (name objective_name : option string)
    (minimize : bool) (parameter_constraints : option (list string))
    (outcome_constraints : option (list string))
    (status_quo : option (dict pyval)) (experiment_type : option string)
    (e : Experiment) :
  make_experiment DEFAULT_OBJECTIVE_NAME parameters name objective_name
    minimize parameter_constraints outcome_constraints status_quo
    experiment_type = Ok e ->
  let ps := ss_parameters (exp_search_space e) in
  let ocs := oc_outcome_constraints (exp_optimization_config e) in
  Forall2 (fun r p => parameter_from_json r = Ok p) parameters ps
  /\ Forall2 (fun c oc => outcome_constraint_from_str c = Ok oc)
       (default [] outcome_constraints) ocs
  /\ (status_quo = None -> Forall (fun oc => relative oc = false) ocs)
  /\ oc_objective (exp_optimization_config e)
     = {| obj_metric :=
            {| Metric_name := str_or objective_name DEFAULT_OBJECTIVE_NAME |};
          obj_minimize := minimize |}
  /\ match parameter_constraints with
     | None => ss_parameter_constraints (exp_search_space e) = None
     | Some cs =>
         exists pcs,
           ss_parameter_constraints (exp_search_space e) = Some pcs
           /\ Forall2 (fun c pc =>
                         constraint_from_str c (parameter_map ps) = Ok pc)
                cs pcs
     end
  /\ exp_name e = name
  /\ exp_status_quo e = Build_Arm <$> status_quo
  /\ exp_experiment_type e = experiment_type.
Proof.
  unfold make_experiment. intros H.
  destruct (comprehension parameter_from_json parameters) as [ps|]
    eqn:Hps; [|done].
  result_step_in H.
  destruct (comprehension outcome_constraint_from_str _) as [ocs|]
    eqn:Hocs; [|done].
  result_step_in H.
  destruct (bool_decide _ && existsb relative ocs) eqn:Hrel; [done|].
  apply comprehension_Ok in Hps, Hocs.
  assert (status_quo = None -> Forall (fun oc => relative oc = false) ocs)
    as Hnone.
  { intros ->. rewrite bool_decide_eq_true_2 in Hrel by done.
    cbn [andb] in Hrel. apply Forall_forall. intros oc Hoc.
    apply not_true_is_false. intros Hr.
    assert (existsb relative ocs = true) as Hex; [|congruence].
    apply existsb_exists. exists oc. split; [|done].
    by apply list_elem_of_In. }
  destruct parameter_constraints as [cs|].
  - destruct (comprehension _ cs) as [pcs|] eqn:Hpcs; [|done].
    result_step_in H. injection H as <-. cbn.
    apply comprehension_Ok in Hpcs. repeat split; try done.
    by exists pcs.
  - result_step_in H. injection H as <-. cbn. by repeat split.
Qed.


(** X15. In an experiment that [make_experiment] returns, every parameter
    constraint refers to parameters of the search space: the parameters of
    order and sum constraints are among the experiment's parameters, and
    every name in the dictionary of a weighted constraint is the name of
    one of them. *)
Theorem make_experiment_constraints_in_search_space
    (parameters : list (dict pyval)) (name objective_name : option string)
    (minimize : bool) (constraints : list string)
    (outcome_constraints : option (list string))
    (status_quo : option (dict pyval)) (experiment_type : option string)
    (e : Experiment) :
  make_experiment DEFAULT_OBJECTIVE_NAME parameters name objective_name
    minimize (Some constraints) outcome_constraints status_quo
    experiment_type = Ok e ->
  let ps := ss_parameters (exp_search_space e) in
  exists pcs,
    ss_parameter_constraints (exp_search_space e) = Some pcs
    /\ length pcs = length constraints
    /\ Forall (fun pc =>
         match pc with
         | OrderConstraint lower upper => lower ∈ ps /\ upper ∈ ps
         | SumConstraint l _ _ => forall p, p ∈ l -> p ∈ ps
         | ParameterConstraint d _ =>
             forall k, k ∈ keys d ->
               exists p, p ∈ ps /\ parameter_name p = k
         end) pcs.
Proof.
  unfold make_experiment. intros H.
  destruct (comprehension parameter_from_json parameters) as [ps|]
    eqn:Hps; [|done].
  result_step_in H.
  destruct (comprehension outcome_constraint_from_str _) as [ocs|]
    eqn:Hocs; [|done].
  result_step_in H.
  destruct (bool_decide _ && existsb relative ocs) eqn:Hrel; [done|].
  fold (parameter_map ps) in H.
  destruct (comprehension _ constraints) as [pcs|] eqn:Hpcs; [|done].
  result_step_in H. injection H as <-. cbn.
  apply comprehension_Ok in Hpcs. exists pcs. split; [done|]. split.
  - symmetry. by eapply Forall2_length.
  - induction Hpcs as [|c pc cs pcs' Hc _ IH]; constructor; [|done].
    apply constraint_from_tokens_known in Hc.
    destruct pc as [lower upper|l ? ?|d ?].
    + destruct Hc. split; by apply parameter_map_values.
    + intros p Hp. by apply parameter_map_values, Hc.
    + intros k Hk. by apply parameter_map_keys, Hc.
Qed.

End make_experiment_properties.

Lemma make_experiment_inversion_witness :
  Forall2 (fun r p => parameter_from_json r = Ok p) [epochs_representation]
    [RangeParameter "epochs" INT (VInt 1) (VInt 10) (VBool true)
       (VBool false)].
Proof.
  refine (proj1 (make_experiment_inversion "objective"
    [epochs_representation] (Some "tuning") None true None
    (Some ["loss <= 1"]) None None
    {| exp_name := Some "tuning";
       exp_search_space :=
         {| ss_parameters :=
              [RangeParameter "epochs" INT (VInt 1) (VInt 10) (VBool true)
                 (VBool false)];
            ss_parameter_constraints := None |};
       exp_optimization_config :=
         {| oc_objective :=
              {| obj_metric := {| Metric_name := "objective" |};
                 obj_minimize := true |};
            oc_outcome_constraints :=
              [{| oc_metric := {| Metric_name := "loss" |}; oc_op := LEQ;
                  oc_bound := S754_finite false 4503599627370496 (-52);
                  relative := false |}] |};
       exp_status_quo := None;
       exp_experiment_type := None |} _)).
  vm_compute. reflexivity.
Defined.


Definition range_a : parameter :=
  RangeParameter "a" INT (VInt 0) (VInt 1) (VBool false) (VBool false).
Definition range_b : parameter :=
  RangeParameter "b" INT (VInt 0) (VInt 5) (VBool false) (VBool false).

Lemma make_experiment_constraints_in_search_space_witness :
  exists pcs,
    Some [OrderConstraint range_a range_b] = Some pcs
    /\ length pcs = 1
    /\ Forall (fun pc =>
         match pc with
         | OrderConstraint lower upper =>
             lower ∈ [range_a; range_b] /\ upper ∈ [range_a; range_b]
         | SumConstraint l _ _ =>
             forall p, p ∈ l -> p ∈ [range_a; range_b]
         | ParameterConstraint d _ =>
             forall k, k ∈ keys d ->
               exists p, p ∈ [range_a; range_b] /\ parameter_name p = k
         end) pcs.
Proof.
  refine (make_experiment_constraints_in_search_space "objective"
    [[("name", VStr "a"); ("type", VStr "range");
      ("bounds", VList [VInt 0; VInt 1])];
     [("name", VStr "b"); ("type", VStr "range");
      ("bounds", VList [VInt 0; VInt 5])]]
    None None false ["a <= b"] None None None
    {| exp_name := None;
       exp_search_space :=
         {| ss_parameters := [range_a; range_b];
            ss_parameter_constraints :=
              Some [OrderConstraint range_a range_b] |};
       exp_optimization_config :=
         {| oc_objective :=
              {| obj_metric := {| Metric_name := "objective" |};
                 obj_minimize := false |};
            oc_outcome_constraints := [] |};
       exp_status_quo := None;
       exp_experiment_type := None |} _).
  vm_compute. reflexivity.
Defined.

Section make_experiment_success.

Variable DEFAULT_OBJECTIVE_NAME : string.

(** X16. When the parameters build, the outcome constraints parse, and
    either a status quo is given or no outcome constraint is relative,
    [make_experiment] without parameter constraints returns the experiment
    made of those parts; with a status quo, relative outcome constraints
    are accepted. *)
Theorem make_experiment_succeeds
    (parameters : list (dict pyval)) (name objective_name : option string)
    (minimize : bool) (outcome_constraints : option (list string))
    (status_quo : option (dict pyval)) (experiment_type : option string)
    (ps : list parameter) (ocs : list OutcomeConstraint) :
  Forall2 (fun r p => parameter_from_json r = Ok p) parameters ps ->
  Forall2 (fun c oc => outcome_constraint_from_str c = Ok oc)
    (default [] outcome_constraints) ocs ->
  status_quo ≠ None \/ Forall (fun oc => relative oc = false) ocs ->
  make_experiment DEFAULT_OBJECTIVE_NAME parameters name objective_name
    minimize None outcome_constraints status_quo experiment_type
  = Ok {| exp_name := name;
          exp_search_space :=
            {| ss_parameters := ps; ss_parameter_constraints := None |};
          exp_optimization_config :=
            {| oc_objective :=
                 {| obj_metric :=
                      {| Metric_name :=
                           str_or objective_name DEFAULT_OBJECTIVE_NAME |};
                    obj_minimize := minimize |};
               oc_outcome_constraints := ocs |};
          exp_status_quo := Build_Arm <$> status_quo;
          exp_experiment_type := experiment_type |}.
Proof.
  intros Hps%comprehension_Ok Hocs%comprehension_Ok Hsq.
  unfold make_experiment. rewrite Hps. result_step. rewrite Hocs.
  result_step.
  assert (bool_decide (Build_Arm <$> status_quo = None)
          && existsb relative ocs = false) as ->; [|done].
  destruct Hsq as [Hsq|Hrel].
  - rewrite bool_decide_eq_false_2; [done|]. by destruct status_quo.
  - assert (existsb relative ocs = false) as ->; [|by rewrite andb_false_r].
    clear Hocs. induction Hrel as [|oc ocs' Hoc _ IH]; [done|].
    cbn [existsb]. by rewrite Hoc, IH.
Qed.

End make_experiment_success.

Lemma make_experiment_succeeds_witness :
  make_experiment "objective" [epochs_representation] None (Some "") false
    None (Some ["auc >= 80%"]) (Some [("epochs", VInt 3)]) None
  = Ok {| exp_name := None;
          exp_search_space :=
            {| ss_parameters :=
                 [RangeParameter "epochs" INT (VInt 1) (VInt 10)
                    (VBool true) (VBool false)];
               ss_parameter_constraints := None |};
          exp_optimization_config :=
            {| oc_objective :=
                 {| obj_metric := {| Metric_name := "objective" |};
                    obj_minimize := false |};
               oc_outcome_constraints :=
                 [{| oc_metric := {| Metric_name := "auc" |}; oc_op := GEQ;
                     oc_bound := S754_finite false 5629499534213120 (-46);
                     relative := true |}] |};
          exp_status_quo := Some {| Arm_parameters := [("epochs", VInt 3)] |};
          exp_experiment_type := None |}.
Proof.
  refine (make_experiment_succeeds "objective" [epochs_representation]
    None (Some "") false (Some ["auc >= 80%"])
    (Some [("epochs", VInt 3)]) None _ _ _ _ _).
  - constructor; [vm_compute; reflexivity|constructor].
  - constructor; [vm_compute; reflexivity|constructor].
  - by left.
Defined.

(** ** Evaluation normaliser *)

Lemma existsb_isinstance_false (t : pytype) (l : list pyval) :
  t = dict_ \/ t = list_ ->
  existsb (fun x => isinstance x t) l = false
  <-> Forall (fun x => type_of x ≠ t) l.
Proof.
  intros Ht. induction l as [|x l IH]; simpl.
  - split; [by constructor|done].
  - rewrite orb_false_iff, IH, Forall_cons.
    rewrite (isinstance_exact x t Ht). by rewrite bool_decide_eq_false.
Qed.

Section evaluation_properties.

Variable numpy_type_to_python_type : pyval -> pyval.

(** What a normalised evaluation looks like. *)
Definition canonical_evaluation (r : pyval) : Prop :=
  match r with
  | VList _ => True
  | VDict d => Forall (fun v => type_of v ≠ dict_) (values d)
  | _ => False
  end.

Lemma raw_data_canonical (raw_data : pyval) (objective_name : string)
    (start_time end_time : option Z) (r : pyval) :
  raw_data_to_evaluation numpy_type_to_python_type raw_data objective_name
    start_time end_time = Ok r ->
  canonical_evaluation r
  /\ (type_of raw_data = list_ \/ type_of raw_data = dict_ -> r = raw_data)
  /\ (type_of raw_data ≠ list_ -> type_of r = dict_).
Proof.
  unfold raw_data_to_evaluation.
  destruct raw_data as [| | | | | |l|d|[]|[]]; cbn; try done;
    try (intros [= <-]; repeat split; try done;
         try (by repeat constructor); by intros [|]).
  destruct (existsb _ _) eqn:Hd; [done|]. intros [= <-].
  apply existsb_isinstance_false in Hd; [|by left]. by repeat split.
Qed.

Lemma canonical_is_fixed (r : pyval) (objective_name : string)
    (start_time end_time : option Z) :
  canonical_evaluation r ->
  raw_data_to_evaluation numpy_type_to_python_type r objective_name
    start_time end_time = Ok r.
Proof.
  destruct r as [| | | | |l | |d| |]; try done. cbn. intros Hd.
  apply existsb_isinstance_false in Hd; [|by left]. by rewrite Hd.
Qed.

(** X17. A normalised evaluation is a list, returned as it was given, or a
    mapping none of whose values is a mapping; an input that is not a list
    always normalises to a mapping. *)
Theorem raw_data_to_evaluation_canonical (raw_data : pyval)
    (objective_name : string) (start_time end_time : option Z) (r : pyval) :
  raw_data_to_evaluation numpy_type_to_python_type raw_data objective_name
    start_time end_time = Ok r ->
  match r with
  | VList _ => r = raw_data
  | VDict d => Forall (fun v => type_of v ≠ dict_) (values d)
  | _ => False
  end.
Proof.
  intros H. pose proof (raw_data_canonical _ _ _ _ _ H) as (Hc & Hsame & Hd).
  destruct r; try done.
  destruct (decide (type_of raw_data = list_)) as [Hl|Hl];
    [by apply Hsame; left|].
  by apply Hd in Hl.
Qed.

(** X18. Normalisation is idempotent: normalising a normalised evaluation
    again, under any objective name, returns it unchanged. *)
Theorem raw_data_to_evaluation_idempotent (raw_data : pyval)
    (objective_name objective_name' : string)
    (start_time end_time start_time' end_time' : option Z) (r : pyval) :
  raw_data_to_evaluation numpy_type_to_python_type raw_data objective_name
    start_time end_time = Ok r ->
  raw_data_to_evaluation numpy_type_to_python_type r objective_name'
    start_time' end_time' = Ok r.
Proof.
  intros H. apply canonical_is_fixed.
  by destruct (raw_data_canonical _ _ _ _ _ H).
Qed.

Variable Data : Type.
Variable Data_from_evaluations Data_from_fidelity_evaluations :
  dict pyval -> Z -> dict Z -> option Z -> option Z -> result Data.

(** X19. Evaluations that were each normalised from raw data that is not a
    list go to the no-fidelity constructor: scalars, tuples and mappings
    never end in the mixture error. *)
Theorem normalized_evaluations_have_no_fidelity
    (evaluations : dict pyval) (trial_index : Z) (sample_sizes : dict Z)
    (start_time end_time : option Z) :
  NoDup (keys evaluations) ->
  Forall (fun v => exists raw_data objective_name st et,
            type_of raw_data ≠ list_
            /\ raw_data_to_evaluation numpy_type_to_python_type raw_data
                 objective_name st et = Ok v)
    (values evaluations) ->
  data_from_evaluations Data Data_from_evaluations
    Data_from_fidelity_evaluations evaluations trial_index sample_sizes
    start_time end_time
  = Data_from_evaluations evaluations trial_index sample_sizes start_time
      end_time.
Proof.
  intros Hnd Hall. unfold data_from_evaluations.
  rewrite (proj2 (all_isinstance_Forall evaluations dict_
                    (or_introl eq_refl) Hnd)); [done|].
  eapply Forall_impl; [exact Hall|]. cbn.
  intros v (raw & n & st & et & Hraw & Hv).
  by apply (raw_data_canonical _ _ _ _ _ Hv).
Qed.

End evaluation_properties.

Lemma raw_data_to_evaluation_canonical_witness :
  Forall (fun v => type_of v ≠ dict_)
    (values [("loss", VTuple [VInt 3; VNone])]).
Proof.
  exact (raw_data_to_evaluation_canonical np_item (VInt 3) "loss" None None
           (VDict [("loss", VTuple [VInt 3; VNone])]) eq_refl).
Defined.

Lemma raw_data_to_evaluation_idempotent_witness :
  raw_data_to_evaluation np_item
    (VDict [("loss", VTuple [VInt 3; VNone])]) "other" None None
  = Ok (VDict [("loss", VTuple [VInt 3; VNone])]).
Proof.
  exact (raw_data_to_evaluation_idempotent np_item (VInt 3) "loss" "other"
           None None None None (VDict [("loss", VTuple [VInt 3; VNone])])
           eq_refl).
Defined.

Definition log_call (entry : string) (evaluations : dict pyval)
    (trial_index : Z) (sample_sizes : dict Z)
    (start_time end_time : option Z) : result data_log :=
  Ok (entry, evaluations, trial_index, sample_sizes, start_time, end_time).

Definition two_arms : dict pyval :=
  [("arm1", VDict [("loss", VTuple [VInt 3; VNone])]);
   ("arm2", VDict [("loss", VTuple [VInt 1; VInt 0])])].

Lemma normalized_evaluations_have_no_fidelity_witness :
  data_from_evaluations data_log (log_call "from_evaluations")
    (log_call "from_fidelity_evaluations") two_arms 7 [] None None
  = Ok ("from_evaluations", two_arms, 7%Z, [], None, None).
Proof.
  refine (normalized_evaluations_have_no_fidelity np_item data_log
    (log_call "from_evaluations") (log_call "from_fidelity_evaluations")
    two_arms 7 [] None None _ _).
  - apply (bool_decide_unpack _). vm_compute. exact I.
  - repeat constructor.
    + exists (VInt 3), "loss", None, None. split; [discriminate|reflexivity].
    + exists (VTuple [VInt 1; VInt 0]), "loss", None, None.
      split; [discriminate|reflexivity].
Defined.
